(** * write-assistant-app: the request validator, the prompt builder and the
      [/process] handler of [app.py]

    The development embeds [app.py] shallowly.

    - A Python [str] is the list of its Unicode code points ([pystr]); [len]
      is the length of that list, [+] and [str.join] are concatenation.
    - A Python [int] is a [Z].
    - [request.form] and [request.files] are werkzeug [MultiDict]s: ordered
      association lists in which [get] and [__getitem__] answer with the
      first value stored under the key.
    - The handler talks to two collaborators, the completion provider and
      the logger.  It is a finite tree of such interactions ([prog]) whose
      leaves are either a returned value or a raised exception; [try ...
      except] is [try_except].
    - A request is what its body holds, the fields of the form and the
      uploaded files, together with the length of the body and with what
      the parser of the framework raises on it, if anything.  The handler
      reads the body through [request.form], and that first read raises
      [RequestEntityTooLarge] when the body is longer than
      [MAX_CONTENT_LENGTH].
    - The parts of the Unicode character database that the builtins
      [str.strip], [str.lower] and [int] consult are an interface
      ([Unicode]); everything is stated for an arbitrary instance.  The
      instance [ascii_tables] is used to run the code on ASCII inputs. *)

From Stdlib Require Import ZArith NArith List String Ascii Bool Lia DecimalString.
Import ListNotations.

Set Implicit Arguments.
Local Open Scope Z_scope.

(** ** Python strings *)

Module Py.

Definition pystr := list N.

(** A source literal (the literals of [app.py] are ASCII). *)
Definition str (s : string) : pystr := map N_of_ascii (list_ascii_of_string s).

(** The escape [\n] of a Python literal. *)
Definition nl : pystr := [10%N].

Definition len (s : pystr) : Z := Z.of_nat (List.length s).

Fixpoint str_eqb (a b : pystr) : bool :=
  match a, b with
  | [], [] => true
  | x :: a', y :: b' => N.eqb x y && str_eqb a' b'
  | _, _ => false
  end.

(** Truth value of a [str]: the empty string is falsy. *)
Definition truthy (s : pystr) : bool :=
  match s with [] => false | _ :: _ => true end.

(** [str(n)] and the f-string field [{n}] for an [int]. *)
Definition str_of_int (n : Z) : pystr := str (NilZero.string_of_int (Z.to_int n)).

(** [x in s] for a one-character [x]. *)
Definition contains_char (c : N) (s : pystr) : bool := existsb (N.eqb c) s.

(** The text after the last occurrence of [c]: [s.rsplit(c, 1)[1]] when [c]
    occurs in [s]. *)
Fixpoint after_last (c : N) (s : pystr) : pystr :=
  match s with
  | [] => []
  | x :: r => if contains_char c r then after_last c r
              else if N.eqb x c then r else []
  end.

Fixpoint dropwhile (p : N -> bool) (s : pystr) : pystr :=
  match s with
  | [] => []
  | x :: r => if p x then dropwhile p r else s
  end.

(** The tables of the Unicode character database behind the builtins. *)
Class Unicode := {
  (** [Py_UNICODE_ISSPACE] *)
  isspace : N -> bool;
  (** [Py_UNICODE_TODECIMAL]: the value of a decimal digit *)
  todecimal : N -> option N;
  (** [str.lower] *)
  lower : pystr -> pystr
}.

Section Builtins.
Context {U : Unicode}.

(** [s.strip()]: white space is dropped at both ends. *)
Definition strip (s : pystr) : pystr :=
  rev' (dropwhile isspace (rev' (dropwhile isspace s))).

End Builtins.

(** *** Exceptions *)

(** The exception classes the handler can meet.  The provider's exceptions
    carry what [str(e)] returns. *)
Inductive exception :=
| ValueError
| TypeError
| IndexError
| AttributeError
| UnicodeDecodeError
| RequestEntityTooLarge
| RateLimitError (msg : pystr)
| InvalidRequestError (msg : pystr)
| OtherException (msg : pystr).

Inductive result (A : Type) :=
| Ok (a : A)
| Raised (e : exception).
Arguments Ok {A} a.
Arguments Raised {A} e.

(** *** [int(x)] *)

Inductive pyval :=
| PyNone
| PyInt (z : Z)
| PyStr (s : pystr).

(** [Py_ISSPACE] of the C locale. *)
Definition ascii_isspace (c : N) : bool :=
  (N.eqb c 32 || (N.leb 9 c && N.leb c 13))%N.

Definition is_digit (c : N) : bool := (N.leb 48 c && N.leb c 57)%N.

Definition underscore : N := 95%N.
Definition plus : N := 43%N.
Definition minus : N := 45%N.

(** Whether [s] starts with the character [c]. *)
Definition leading (c : N) (s : pystr) : bool :=
  match s with
  | x :: _ => N.eqb x c
  | [] => false
  end.

(** The digit-limit of integer string conversion (CPython's default). *)
Definition max_str_digits : nat := 4300.

(** The digit loop of [PyLong_FromString] in base 10: digits separated by
    single underscores.  It answers with the value, the number of digits
    read and the rest of the input, or with [None] on a doubled or a
    trailing underscore. *)
Fixpoint digits_loop (s : pystr) (prev : N) (acc : Z) (count : nat)
  : option (Z * nat * pystr) :=
  match s with
  | c :: r =>
      if is_digit c then digits_loop r c (10 * acc + (Z.of_N c - 48)) (S count)
      else if N.eqb c underscore then
        if N.eqb prev underscore then None else digits_loop r c acc count
      else if N.eqb prev underscore then None else Some (acc, count, s)
  | [] => if N.eqb prev underscore then None else Some (acc, count, s)
  end.

Section Int.
Context {U : Unicode}.

(** One character of [_PyUnicode_TransformDecimalAndSpaceToASCII]: ASCII is
    kept, other white space becomes a blank, other decimal digits become
    ASCII digits and anything else becomes ['?']. *)
Definition to_ascii (c : N) : N :=
  if (c <? 128)%N then c
  else if isspace c then 32%N
  else match todecimal c with
       | Some d => (48 + d)%N
       | None => 63%N
       end.

(** The digits of [int(s)] and what may follow them. *)
Definition unsigned_of_str (s : pystr) : result Z :=
  if leading underscore s then Raised ValueError
  else
    match digits_loop s 0%N 0 0%nat with
    | None => Raised ValueError
    | Some (value, count, rest) =>
        if Nat.eqb count 0 then Raised ValueError
        else if truthy (dropwhile ascii_isspace rest) then Raised ValueError
        else if Nat.ltb max_str_digits count then Raised ValueError
        else Ok value
    end.

(** [int(s)] for a [str]: optional white space, an optional sign, the
    digits, optional white space. *)
Definition int_of_str (s : pystr) : result Z :=
  let s := dropwhile ascii_isspace (map to_ascii s) in
  if leading plus s then unsigned_of_str (tl s)
  else if leading minus s then
    match unsigned_of_str (tl s) with
    | Ok value => Ok (- value)
    | Raised e => Raised e
    end
  else unsigned_of_str s.

Definition py_int (v : pyval) : result Z :=
  match v with
  | PyInt z => Ok z
  | PyStr s => int_of_str s
  | PyNone => Raised TypeError
  end.

End Int.

(** *** [bytes.decode('utf-8')] *)

(** A continuation byte [10xxxxxx] within the given bounds. *)
Definition between (lo hi b : N) : bool := (N.leb lo b && N.leb b hi)%N.

Definition cont (b : N) : N := N.land b 63.

(** The strict UTF-8 decoder: shortest forms only, no surrogates, nothing
    above U+10FFFF.  [None] is [UnicodeDecodeError]. *)
Fixpoint utf8_decode (bs : list N) : option pystr :=
  match bs with
  | [] => Some []
  | b0 :: r0 =>
    if (b0 <? 128)%N then option_map (cons b0) (utf8_decode r0)
    else if (b0 <? 194)%N then None
    else if (b0 <? 224)%N then
      match r0 with
      | b1 :: r1 =>
          if between 128 191 b1
          then option_map (cons (N.land b0 31 * 64 + cont b1)%N) (utf8_decode r1)
          else None
      | _ => None
      end
    else if (b0 <? 240)%N then
      match r0 with
      | b1 :: b2 :: r2 =>
          let lo := if N.eqb b0 224 then 160%N else 128%N in
          let hi := if N.eqb b0 237 then 159%N else 191%N in
          if between lo hi b1 && between 128 191 b2
          then option_map
                 (cons (N.land b0 15 * 4096 + cont b1 * 64 + cont b2)%N)
                 (utf8_decode r2)
          else None
      | _ => None
      end
    else if (b0 <? 245)%N then
      match r0 with
      | b1 :: b2 :: b3 :: r3 =>
          let lo := if N.eqb b0 240 then 144%N else 128%N in
          let hi := if N.eqb b0 244 then 143%N else 191%N in
          if between lo hi b1 && between 128 191 b2 && between 128 191 b3
          then option_map
                 (cons (N.land b0 7 * 262144 + cont b1 * 4096
                        + cont b2 * 64 + cont b3)%N)
                 (utf8_decode r3)
          else None
      | _ => None
      end
    else None
  end.

(** *** [MultiDict] *)

Section MultiDict.
Variable V : Type.

Definition multidict := list (pystr * V).

(** [d.get(key)]: the first value stored under [key], if any. *)
Fixpoint get (d : multidict) (key : pystr) : option V :=
  match d with
  | [] => None
  | (k, v) :: d' => if str_eqb k key then Some v else get d' key
  end.

End MultiDict.

(** An instance for running the code on ASCII inputs: it agrees with
    CPython's tables on the code points below 128. *)
Definition ascii_lower (c : N) : N :=
  if (N.leb 65 c && N.leb c 90)%N then (c + 32)%N else c.

#[export] Instance ascii_tables : Unicode := {
  isspace c := (N.eqb c 32 || (N.leb 9 c && N.leb c 13) || (N.leb 28 c && N.leb c 31))%N;
  todecimal c := if is_digit c then Some (c - 48)%N else None;
  lower := map ascii_lower
}.

End Py.


Import Py.

(** ** The collaborators of the handler *)

(** JSON values, as [jsonify] serialises the handler's dictionaries. *)
#[warnings="-register-all"] Inductive json :=
| JNull
| JBool (b : bool)
| JInt (n : Z)
| JStr (s : pystr)
| JObject (fields : list (string * json)).

Definition jsonify (fields : list (string * json)) : json := JObject fields.

(** What a view returns: a body and a status ([200] when the view returns
    the body alone). *)
Record response := Response { body : json; status : Z }.

(** The keyword arguments of [openai.ChatCompletion.create].  A message is
    its [role] and its [content]; [temperature] is kept as the literal. *)
Record chat_request := ChatRequest {
  model : pystr;
  messages : list (pystr * pystr);
  max_tokens : Z;
  temperature : pystr
}.

(** The provider's answer: [response.choices], each choice given by its
    [message.content] ([None] when the provider sends none). *)
Definition chat_response := list (option pystr).

Inductive level := INFO | ERROR.

(** The handler as a tree of interactions.  [Log l msg e k] logs, at level
    [l], the text [msg] followed by [str(e)] when [e] is given. *)
Inductive prog (A : Type) :=
| Return (a : A)
| Raise (e : exception)
| ChatCompletion_create (r : chat_request) (k : result chat_response -> prog A)
| Log (l : level) (msg : pystr) (e : option exception) (k : prog A).
Arguments Return {A} a.
Arguments Raise {A} e.
Arguments ChatCompletion_create {A} r k.
Arguments Log {A} l msg e k.

Fixpoint bind {A B} (p : prog A) (f : A -> prog B) : prog B :=
  match p with
  | Return a => f a
  | Raise e => Raise e
  | ChatCompletion_create r k => ChatCompletion_create r (fun x => bind (k x) f)
  | Log l msg e k => Log l msg e (bind k f)
  end.

Notation "x <- p ;; q" := (bind p (fun x => q))
  (at level 61, p at next level, right associativity).

Definition lift {A} (r : result A) : prog A :=
  match r with
  | Ok a => Return a
  | Raised e => Raise e
  end.

(** [try: body except Exception as e: handler e]: an exception raised by
    the handler itself is not caught again. *)
Fixpoint try_except {A} (body : prog A) (handler : exception -> prog A) : prog A :=
  match body with
  | Return a => Return a
  | Raise e => handler e
  | ChatCompletion_create r k =>
      ChatCompletion_create r (fun x => try_except (k x) handler)
  | Log l msg e k => Log l msg e (try_except k handler)
  end.

(** What an observer of a request sees besides the response. *)
Inductive event :=
| Called (r : chat_request)
| Logged (l : level) (msg : pystr) (e : option exception).

(** Running a program against a provider. *)
Fixpoint run {A} (provider : chat_request -> result chat_response) (p : prog A)
  : list event * result A :=
  match p with
  | Return a => ([], Ok a)
  | Raise e => ([], Raised e)
  | ChatCompletion_create r k =>
      let '(t, a) := run provider (k (provider r)) in (Called r :: t, a)
  | Log l msg e k =>
      let '(t, a) := run provider k in (Logged l msg e :: t, a)
  end.

(** The handler goes on with a value, returns a response, or an exception
    is raised. *)
Inductive step (A : Type) :=
| Continue (a : A)
| Respond (r : response)
| Raises (e : exception).
Arguments Continue {A} a.
Arguments Respond {A} r.
Arguments Raises {A} e.

(** ** [app.py] *)

Section App.
Context {U : Unicode}.

Definition ALLOWED_EXTENSIONS : list pystr := [str "txt"; str "md"].

Definition dot : N := 46%N.

Definition allowed_file (filename : pystr) : bool :=
  contains_char dot filename
  && existsb (str_eqb (lower (after_last dot filename))) ALLOWED_EXTENSIONS.

(** [request.form]: the fields of the submitted form. *)
Definition form_data := multidict pystr.

(** [data.get(param, default)] *)
Definition get_default (data : form_data) (param : pystr) (default : pyval) : pyval :=
  match get data param with
  | Some s => PyStr s
  | None => default
  end.

Definition required_params : list pystr :=
  [str "faithfulness"; str "human_like"; str "ai_like"; str "formality"].

(** The loop of [validate_slider_values] over the parameters still to be
    examined.  Only [ValueError] and [TypeError] are caught. *)
Fixpoint validate_loop (data : form_data) (params : list pystr)
  : result (bool * option pystr) :=
  match params with
  | [] => Ok (true, None)
  | param :: rest =>
      match py_int (get_default data param (PyInt 0)) with
      | Ok value =>
          if negb ((0 <=? value) && (value <=? 10))
          then Ok (false, Some (param ++ str " must be between 0 and 10"))
          else validate_loop data rest
      | Raised ValueError | Raised TypeError =>
          Ok (false, Some (param ++ str " must be a valid number"))
      | Raised e => Raised e
      end
  end.

Definition validate_slider_values (data : form_data) : result (bool * option pystr) :=
  validate_loop data required_params.

(** The list [prompt_parts] of [create_processing_prompt] just before it is
    joined. *)
Definition prompt_parts (text : pystr) (faithfulness human_like ai_like formality : Z)
  : list pystr :=
  let prompt_parts :=
    [ str "Please process the following text according to these specific parameters:";
      nl ++ str "**Faithfulness to Original (Level " ++ str_of_int faithfulness ++ str "/10):**" ] in
  let prompt_parts := prompt_parts ++
    [ if faithfulness <=? 2 then
        str "Make significant changes and improvements to the content while preserving core meaning."
      else if faithfulness <=? 5 then
        str "Make moderate changes to improve clarity and flow while keeping most original content."
      else
        str "Make minimal changes, focusing only on essential corrections and improvements." ] in
  let prompt_parts := prompt_parts ++
    [ nl ++ str "**Human-like Sound (Level " ++ str_of_int human_like ++ str "/10):**" ] in
  let prompt_parts := prompt_parts ++
    [ if human_like <=? 2 then
        str "Use very natural, conversational language with contractions and casual expressions."
      else if human_like <=? 5 then
        str "Use moderately natural language that sounds human but polished."
      else
        str "Use highly natural, warm, and engaging human language with personality." ] in
  let prompt_parts := prompt_parts ++
    [ nl ++ str "**AI-like Sound (Level " ++ str_of_int ai_like ++ str "/10):**" ] in
  let prompt_parts := prompt_parts ++
    [ if ai_like <=? 2 then
        str "Avoid any mechanical or robotic phrasing; sound completely human."
      else if ai_like <=? 5 then
        str "Use some structured phrasing but maintain natural flow."
      else
        str "Use precise, structured language that sounds more systematic and analytical." ] in
  let prompt_parts := prompt_parts ++
    [ nl ++ str "**Formality Level (Level " ++ str_of_int formality ++ str "/10):**" ] in
  let prompt_parts := prompt_parts ++
    [ if formality <=? 2 then
        str "Use very casual, informal language appropriate for friends or social media."
      else if formality <=? 5 then
        str "Use moderately formal language suitable for business communication."
      else
        str "Use highly formal, academic or professional language." ] in
  prompt_parts ++
    [ nl ++ str "**Text to process:**";
      nl ++ text;
      nl ++ str "**Instructions:** Apply the above parameters to rewrite this text. Return only the processed text without explanations." ].

Definition create_processing_prompt (text : pystr)
  (faithfulness human_like ai_like formality : Z) : pystr :=
  List.concat (prompt_parts text faithfulness human_like ai_like formality).

(** *** The [/process] route *)

(** An uploaded file ([werkzeug.FileStorage]): its name and the bytes
    [read()] returns.  Its truth value is that of its name. *)
Record FileStorage := { filename : pystr; content : list N }.

(** [bool(file)] *)
Definition file_truthy (file : FileStorage) : bool := truthy (filename file).

(** A request: the fields and the files its body holds, the length of the
    body in bytes, and the exception that parsing this body raises besides
    the check of its length (a limit of the parser, a connection that
    breaks), if any. *)
Record request := {
  form : form_data;
  files : multidict FileStorage;
  content_length : Z;
  read_error : option exception
}.

Definition MAX_FILE_SIZE : Z := 16 * 1024 * 1024.

(** [app.config['MAX_CONTENT_LENGTH']] *)
Definition MAX_CONTENT_LENGTH : Z := MAX_FILE_SIZE.

(** The first read of [request.form]: werkzeug opens the body, raising when
    it is longer than the configured maximum, and parses it. *)
Definition read_form (req : request) : result form_data :=
  if content_length req >? MAX_CONTENT_LENGTH then Raised RequestEntityTooLarge
  else
    match read_error req with
    | Some e => Raised e
    | None => Ok (form req)
    end.

(** The module-level state the handler reads: [openai.api_key]. *)
Record config := { api_key : option pystr }.

Definition key_configured (cfg : config) : bool :=
  match api_key cfg with
  | Some k => truthy k
  | None => false
  end.

Definition failure (error : pystr) (code : Z) : response :=
  Response (jsonify [("success"%string, JBool false); ("error"%string, JStr error)]) code.

(** Lines 119-139: the input text, from the form or from the upload.  The
    result of [secure_filename] is not used and the call has no effect. *)
Definition resolve_text (req : request) : step pystr :=
  match read_form req with
  | Raised e => Raises e
  | Ok data =>
  let text_input :=
    strip (match get data (str "text_input") with
           | Some s => s
           | None => str ""
           end) in
  let after_upload :=
    match get (files req) (str "file") with
    | Some file =>
        if file_truthy file && truthy (filename file)
           && allowed_file (filename file)
        then
          match utf8_decode (content file) with
          | Some file_content =>
              Continue (if negb (truthy text_input) then file_content else text_input)
          | None => Respond (failure (str "File must be valid UTF-8 text") 400)
          end
        else Continue text_input
    | None => Continue text_input
    end in
  match after_upload with
  | Respond r => Respond r
  | Raises e => Raises e
  | Continue text_input =>
      if negb (truthy text_input)
      then Respond (failure (str "Please provide text input or upload a text file") 400)
      else Continue text_input
  end
  end.

Definition system_content : pystr :=
  str "You are an expert writing coach and text editor with deep expertise in grammar, style, clarity, and tone. You excel at improving text while respecting the author's voice and intent. Follow the given parameters precisely to enhance the provided text with professional writing standards.".

Definition completion_request (processing_prompt : pystr) : chat_request :=
  {| model := str "gpt-4o";
     messages := [(str "system", system_content); (str "user", processing_prompt)];
     max_tokens := 2000;
     temperature := str "0.7" |}.

(** [response.choices[0].message.content.strip()] *)
Definition first_content (choices : chat_response) : result pystr :=
  match choices with
  | [] => Raised IndexError
  | None :: _ => Raised AttributeError
  | Some content :: _ => Ok (strip content)
  end.

(** Lines 164-207: the call of the provider and the mapping of its
    outcome. *)
Definition call_provider (text_input processing_prompt : pystr)
  (faithfulness human_like ai_like formality : Z) : prog response :=
  try_except
    (ChatCompletion_create (completion_request processing_prompt) (fun outcome =>
     completion <- lift outcome ;;
     processed_text <- lift (first_content completion) ;;
     Log INFO
       (str "Text processed successfully. Length: " ++ str_of_int (len text_input)
        ++ str " -> " ++ str_of_int (len processed_text)) None
       (Return (Response
          (jsonify
             [("success"%string, JBool true);
              ("original_text"%string, JStr text_input);
              ("processed_text"%string, JStr processed_text);
              ("parameters"%string,
                JObject [("faithfulness"%string, JInt faithfulness);
                         ("human_like"%string, JInt human_like);
                         ("ai_like"%string, JInt ai_like);
                         ("formality"%string, JInt formality)])])
          200))))
    (fun e =>
       match e with
       | RateLimitError _ =>
           Return (failure (str "API rate limit exceeded. Please try again later.") 429)
       | InvalidRequestError msg =>
           Return (failure (str "Invalid request: " ++ msg) 400)
       | _ =>
           Log ERROR (str "OpenAI API error: ") (Some e)
             (Return (failure (str "Failed to process text. Please try again.") 500))
       end).

Definition json_of_option (s : option pystr) : json :=
  match s with
  | Some s => JStr s
  | None => JNull
  end.

(** [int(request.form.get(name))] *)
Definition slider (req : request) (name : string) : prog Z :=
  lift (py_int (get_default (form req) (str name) PyNone)).

Definition process_text (cfg : config) (req : request) : prog response :=
  try_except
    (if negb (key_configured cfg) then
       Return (failure (str "OpenAI API key not configured. Please contact administrator.") 500)
     else
       match resolve_text req with
       | Respond r => Return r
       | Raises e => Raise e
       | Continue text_input =>
           if len text_input >? 10000 then
             Return (failure (str "Text input too long. Maximum 10,000 characters allowed.") 400)
           else
             validation <- lift (validate_slider_values (form req)) ;;
             let '(is_valid, error_msg) := validation in
             if negb is_valid then
               Return (Response
                 (jsonify [("success"%string, JBool false);
                           ("error"%string, json_of_option error_msg)]) 400)
             else
               faithfulness <- slider req "faithfulness" ;;
               human_like <- slider req "human_like" ;;
               ai_like <- slider req "ai_like" ;;
               formality <- slider req "formality" ;;
               let processing_prompt :=
                 create_processing_prompt text_input faithfulness human_like ai_like formality in
               call_provider text_input processing_prompt
                 faithfulness human_like ai_like formality
       end)
    (fun e =>
       Log ERROR (str "Unexpected error in process_text: ") (Some e)
         (Return (failure (str "An unexpected error occurred. Please try again.") 500))).

(** The error handlers registered for 413 and 429. *)
Definition too_large : response :=
  failure (str "File too large. Maximum size is 16MB.") 413.

Definition ratelimit_handler : response :=
  failure (str "Rate limit exceeded. Please try again later.") 429.

(** The route with its limiter: when the limiter refuses the request the
    view does not run, and the 429 it raises is answered by
    [ratelimit_handler]; [limited] is the limiter's verdict. *)
Definition process_route (limited : bool) (cfg : config) (req : request)
  : prog response :=
  if limited then Return ratelimit_handler else process_text cfg req.

End App.

(** ** Vocabulary of the specification *)

(** *** The validator *)

Section Verdict.
Context {U : Unicode}.

(** The specification's check of one parameter: the raw value, or the
    number 0 when the field is absent, is converted and then compared with
    the range.  [None] means that the parameter passes. *)
Definition verdict (data : form_data) (name : pystr) : option pystr :=
  let raw :=
    match get data name with
    | Some value => PyStr value
    | None => PyInt 0
    end in
  match py_int raw with
  | Raised _ => Some (name ++ str " must be a valid number")
  | Ok n =>
      if (n <? 0) || (10 <? n)
      then Some (name ++ str " must be between 0 and 10")
      else None
  end.

End Verdict.

(** *** The prompt *)

Inductive parameter := Faithfulness | Human_like | Ai_like | Formality.

Inductive band := Low | Mid | High.

(** The bands of the specification: at most 2, 3 to 5, at least 6. *)
Definition in_band (b : band) (v : Z) : Prop :=
  match b with
  | Low => v <= 2
  | Mid => 3 <= v <= 5
  | High => 6 <= v
  end.

(** The twelve directive sentences. *)
Definition directive (p : parameter) (b : band) : pystr :=
  match p, b with
  | Faithfulness, Low =>
      str "Make significant changes and improvements to the content while preserving core meaning."
  | Faithfulness, Mid =>
      str "Make moderate changes to improve clarity and flow while keeping most original content."
  | Faithfulness, High =>
      str "Make minimal changes, focusing only on essential corrections and improvements."
  | Human_like, Low =>
      str "Use very natural, conversational language with contractions and casual expressions."
  | Human_like, Mid =>
      str "Use moderately natural language that sounds human but polished."
  | Human_like, High =>
      str "Use highly natural, warm, and engaging human language with personality."
  | Ai_like, Low =>
      str "Avoid any mechanical or robotic phrasing; sound completely human."
  | Ai_like, Mid =>
      str "Use some structured phrasing but maintain natural flow."
  | Ai_like, High =>
      str "Use precise, structured language that sounds more systematic and analytical."
  | Formality, Low =>
      str "Use very casual, informal language appropriate for friends or social media."
  | Formality, Mid =>
      str "Use moderately formal language suitable for business communication."
  | Formality, High =>
      str "Use highly formal, academic or professional language."
  end.

(** The title of a parameter's block. *)
Definition title (p : parameter) : pystr :=
  match p with
  | Faithfulness => str "Faithfulness to Original"
  | Human_like => str "Human-like Sound"
  | Ai_like => str "AI-like Sound"
  | Formality => str "Formality Level"
  end.

(** A block: the heading with the numeric level, then the directive. *)
Definition block (p : parameter) (n : Z) (b : band) : pystr :=
  nl ++ str "**" ++ title p ++ str " (Level " ++ str_of_int n ++ str "/10):**"
  ++ directive p b.

Definition preamble : pystr :=
  str "Please process the following text according to these specific parameters:".

Definition text_heading : pystr := nl ++ str "**Text to process:**" ++ nl.

Definition closing : pystr :=
  nl ++ str "**Instructions:** Apply the above parameters to rewrite this text. Return only the processed text without explanations.".

(** The value a parameter has among the arguments of the builder. *)
Definition value_of (p : parameter) (faithfulness human_like ai_like formality : Z) : Z :=
  match p with
  | Faithfulness => faithfulness
  | Human_like => human_like
  | Ai_like => ai_like
  | Formality => formality
  end.

(** *** The handler *)

Section HandlerVocabulary.
Context {U : Unicode}.

(** Lines 153-156: the four levels, converted again one after the other. *)
Definition sliders (req : request) : result (Z * Z * Z * Z) :=
  let convert name := py_int (get_default (form req) (str name) PyNone) in
  match convert "faithfulness"%string with
  | Raised e => Raised e
  | Ok faithfulness =>
    match convert "human_like"%string with
    | Raised e => Raised e
    | Ok human_like =>
      match convert "ai_like"%string with
      | Raised e => Raised e
      | Ok ai_like =>
        match convert "formality"%string with
        | Raised e => Raised e
        | Ok formality => Ok (faithfulness, human_like, ai_like, formality)
        end
      end
    end
  end.

(** The text field as the handler reads it: stripped, empty when absent. *)
Definition text_field (req : request) : pystr :=
  strip (match get (form req) (str "text_input") with
         | Some s => s
         | None => str ""
         end).

(** The upload the handler reads: the file sent as [file], when it has a
    name with an allowed extension. *)
Definition upload (req : request) : option FileStorage :=
  match get (files req) (str "file") with
  | Some file =>
      if truthy (filename file) && allowed_file (filename file)
      then Some file else None
  | None => None
  end.

End HandlerVocabulary.

(** The body can be read: it is not longer than the maximum and parsing it
    raises nothing. *)
Definition readable (req : request) : Prop :=
  content_length req <= MAX_CONTENT_LENGTH /\ read_error req = None.

(** A request without its uploads, read in the same way. *)
Definition without_files (req : request) : request :=
  {| form := form req; files := [];
     content_length := content_length req; read_error := read_error req |}.

(** The responses of the handler. *)
Definition not_configured : response :=
  failure (str "OpenAI API key not configured. Please contact administrator.") 500.

Definition bad_encoding : response :=
  failure (str "File must be valid UTF-8 text") 400.

Definition no_input : response :=
  failure (str "Please provide text input or upload a text file") 400.

Definition too_long : response :=
  failure (str "Text input too long. Maximum 10,000 characters allowed.") 400.

Definition provider_rate_limited : response :=
  failure (str "API rate limit exceeded. Please try again later.") 429.

Definition provider_failed : response :=
  failure (str "Failed to process text. Please try again.") 500.

Definition unexpected : response :=
  failure (str "An unexpected error occurred. Please try again.") 500.

Definition success (original_text processed_text : pystr)
  (faithfulness human_like ai_like formality : Z) : response :=
  Response
    (jsonify
       [("success"%string, JBool true);
        ("original_text"%string, JStr original_text);
        ("processed_text"%string, JStr processed_text);
        ("parameters"%string,
          JObject [("faithfulness"%string, JInt faithfulness);
                   ("human_like"%string, JInt human_like);
                   ("ai_like"%string, JInt ai_like);
                   ("formality"%string, JInt formality)])])
    200.

(** The calls among the events of a request. *)
Definition calls (trace : list event) : list chat_request :=
  flat_map (fun ev => match ev with Called r => [r] | Logged _ _ _ => [] end) trace.

Section Handled.
Context {U : Unicode}.
Variable provider : chat_request -> result chat_response.
Variable cfg : config.
Variable req : request.

(** What a request comes to: the events and the result of the handler,
    stage by stage. *)
Inductive handled : list event * result response -> Prop :=
| handled_not_configured :
    key_configured cfg = false ->
    handled ([], Ok not_configured)
| handled_unresolved (r : response) :
    key_configured cfg = true ->
    resolve_text req = Respond r ->
    handled ([], Ok r)
| handled_too_long (text : pystr) :
    key_configured cfg = true ->
    resolve_text req = Continue text ->
    10000 < len text ->
    handled ([], Ok too_long)
| handled_invalid (text reason : pystr) :
    key_configured cfg = true ->
    resolve_text req = Continue text ->
    len text <= 10000 ->
    validate_slider_values (form req) = Ok (false, Some reason) ->
    reason <> [] ->
    handled ([], Ok (failure reason 400))
| handled_conversion (text : pystr) (e : exception) :
    key_configured cfg = true ->
    resolve_text req = Continue text ->
    len text <= 10000 ->
    validate_slider_values (form req) = Ok (true, None) ->
    sliders req = Raised e ->
    handled ([Logged ERROR (str "Unexpected error in process_text: ") (Some e)],
             Ok unexpected)
| handled_call (text : pystr) (f h a fo : Z) :
    key_configured cfg = true ->
    resolve_text req = Continue text ->
    len text <= 10000 ->
    validate_slider_values (form req) = Ok (true, None) ->
    sliders req = Ok (f, h, a, fo) ->
    handled (run provider
               (call_provider text (create_processing_prompt text f h a fo) f h a fo))
| handled_unreadable (e : exception) :
    key_configured cfg = true ->
    resolve_text req = Raises e ->
    handled ([Logged ERROR (str "Unexpected error in process_text: ") (Some e)],
             Ok unexpected).

End Handled.

(** *** The envelope *)

Fixpoint lookup (key : string) (fields : list (string * json)) : option json :=
  match fields with
  | [] => None
  | (k, v) :: rest => if String.eqb k key then Some v else lookup key rest
  end.

(** The member [key] of the body of a response. *)
Definition member (key : string) (r : response) : option json :=
  match body r with
  | JObject fields => lookup key fields
  | _ => None
  end.

Definition present (key : string) (r : response) : Prop := member key r <> None.

(** The invariant of the envelope: [success] is a boolean, and it is true
    exactly when [processed_text] and [parameters] are present and [error]
    is absent. *)
Definition envelope (r : response) : Prop :=
  (exists b, member "success" r = Some (JBool b))
  /\ (member "success" r = Some (JBool true)
      <-> present "processed_text" r /\ present "parameters" r
          /\ ~ present "error" r).

(** A failure: [success] is false and [error] is a non-empty text. *)
Definition failure_envelope (r : response) : Prop :=
  member "success" r = Some (JBool false)
  /\ exists msg, msg <> [] /\ member "error" r = Some (JStr msg).

(** Whether [needle] occurs in [hay] as a contiguous piece. *)
Fixpoint starts_with (needle hay : pystr) : bool :=
  match needle, hay with
  | [], _ => true
  | x :: needle', y :: hay' => N.eqb x y && starts_with needle' hay'
  | _ :: _, [] => false
  end.

Fixpoint occurs (needle hay : pystr) : bool :=
  starts_with needle hay
  || match hay with
     | [] => false
     | _ :: hay' => occurs needle hay'
     end.

(** ** Sample requests *)

Definition configured : config := {| api_key := Some (str "sk-test") |}.


Definition levels (faithfulness human_like ai_like formality : string) : form_data :=
  [(str "faithfulness", str faithfulness); (str "human_like", str human_like);
   (str "ai_like", str ai_like); (str "formality", str formality)].

(** What the fields and the files of a body hold, without the framing of
    the encoding: the body is at least this long. *)
Definition payload (fields : form_data) (uploads : multidict FileStorage) : Z :=
  fold_right (fun field n => len (fst field) + len (snd field) + n) 0 fields
  + fold_right (fun upload n =>
                  len (fst upload) + len (filename (snd upload))
                  + Z.of_nat (List.length (content (snd upload))) + n) 0 uploads.

(** The request that sends the given fields and files, its length being
    that of what it holds. *)
Definition sending (fields : form_data) (uploads : multidict FileStorage) : request :=
  {| form := fields; files := uploads;
     content_length := payload fields uploads; read_error := None |}.

(** A request with a typed text and the given other fields, without
    upload. *)
Definition typed (text : pystr) (fields : form_data) : request :=
  sending ((str "text_input", text) :: fields) [].

(** A request with an uploaded file besides the form. *)
Definition uploading (name : string) (bytes : list N) (fields : form_data) : request :=
  sending fields [(str "file", {| filename := str name; content := bytes |})].

Definition long_text : pystr := repeat 97%N (Z.to_nat 10001).

(** A provider that answers every request in the same way. *)
Definition answering (outcome : result chat_response) : chat_request -> result chat_response :=
  fun _ => outcome.

Definition hello : pystr := str "Hello world".

(** The bytes of an ASCII text. *)
Definition bytes_of (s : string) : list N := str s.

(** Levels 3, 11, abc, 4: the second is out of range, the third is not a
    number. *)
Definition bad_levels : form_data := levels "3" "11" "abc" "4".

(** A typed text with no level field at all. *)
Definition without_levels : request := typed hello [].

Definition long_without_levels : request := typed long_text [].


Definition pdf_only : request := uploading "report.pdf" (bytes_of "Hello world") [].

Definition nothing : request := sending [] [].

Definition context_exceeded : exception :=
  InvalidRequestError (str "maximum context length exceeded").


(** A typed text of 10,001 characters in a body that is longer than the
    maximum because of the file sent with it. *)
Definition oversized : request :=
  {| form := [(str "text_input", long_text)];
     files := [(str "file", {| filename := str "scan.pdf";
                               content := repeat 0%N (Z.to_nat MAX_CONTENT_LENGTH) |})];
     content_length := MAX_CONTENT_LENGTH + 10500;
     read_error := None |}.


(** ** The builder, statement by statement *)

(** The state a call of the builder runs in: the [list] objects alive, each
    known by its address (its index here), the global names of the module
    and the state of the random generator. *)
Record world := {
  objects : list (list pystr);
  globals : list (string * pyval);
  random_state : N
}.

Definition stateful (A : Type) : Type := world -> A * world.

Definition and_then {A B} (c : stateful A) (k : A -> stateful B) : stateful B :=
  fun w => let '(a, w') := c w in k a w'.

Notation "x <-- c ;;; k" := (and_then c (fun x => k))
  (at level 61, c at next level, right associativity).

Fixpoint update_at {A} (n : nat) (f : A -> A) (l : list A) : list A :=
  match l, n with
  | [], _ => []
  | x :: l', O => f x :: l'
  | x :: l', S n' => x :: update_at n' f l'
  end.

(** A list display [[x, y]]: a new object. *)
Definition new_list (items : list pystr) : stateful nat :=
  fun w => (List.length (objects w),
            {| objects := objects w ++ [items];
               globals := globals w;
               random_state := random_state w |}).

(** [l.extend(items)]: the object at the address of [l] grows. *)
Definition list_extend (l : nat) (items : list pystr) : stateful unit :=
  fun w => (tt,
            {| objects := update_at l (fun old => old ++ items) (objects w);
               globals := globals w;
               random_state := random_state w |}).

(** [l.append(item)] *)
Definition list_append (l : nat) (item : pystr) : stateful unit :=
  list_extend l [item].

(** ["".join(l)] *)
Definition join (l : nat) : stateful pystr :=
  fun w => (List.concat (nth l (objects w) []), w).

(** [create_processing_prompt], lines 59-101, one statement after the
    other on the list object [prompt_parts]. *)
Definition create_processing_prompt_steps (text : pystr)
  (faithfulness human_like ai_like formality : Z) : stateful pystr :=
  prompt_parts <-- new_list
    [ str "Please process the following text according to these specific parameters:";
      nl ++ str "**Faithfulness to Original (Level " ++ str_of_int faithfulness ++ str "/10):**" ] ;;;
  _ <-- (if faithfulness <=? 2 then
           list_append prompt_parts (str "Make significant changes and improvements to the content while preserving core meaning.")
         else if faithfulness <=? 5 then
           list_append prompt_parts (str "Make moderate changes to improve clarity and flow while keeping most original content.")
         else
           list_append prompt_parts (str "Make minimal changes, focusing only on essential corrections and improvements.")) ;;;
  _ <-- list_append prompt_parts
          (nl ++ str "**Human-like Sound (Level " ++ str_of_int human_like ++ str "/10):**") ;;;
  _ <-- (if human_like <=? 2 then
           list_append prompt_parts (str "Use very natural, conversational language with contractions and casual expressions.")
         else if human_like <=? 5 then
           list_append prompt_parts (str "Use moderately natural language that sounds human but polished.")
         else
           list_append prompt_parts (str "Use highly natural, warm, and engaging human language with personality.")) ;;;
  _ <-- list_append prompt_parts
          (nl ++ str "**AI-like Sound (Level " ++ str_of_int ai_like ++ str "/10):**") ;;;
  _ <-- (if ai_like <=? 2 then
           list_append prompt_parts (str "Avoid any mechanical or robotic phrasing; sound completely human.")
         else if ai_like <=? 5 then
           list_append prompt_parts (str "Use some structured phrasing but maintain natural flow.")
         else
           list_append prompt_parts (str "Use precise, structured language that sounds more systematic and analytical.")) ;;;
  _ <-- list_append prompt_parts
          (nl ++ str "**Formality Level (Level " ++ str_of_int formality ++ str "/10):**") ;;;
  _ <-- (if formality <=? 2 then
           list_append prompt_parts (str "Use very casual, informal language appropriate for friends or social media.")
         else if formality <=? 5 then
           list_append prompt_parts (str "Use moderately formal language suitable for business communication.")
         else
           list_append prompt_parts (str "Use highly formal, academic or professional language.")) ;;;
  _ <-- list_extend prompt_parts
          [ nl ++ str "**Text to process:**";
            nl ++ text;
            nl ++ str "**Instructions:** Apply the above parameters to rewrite this text. Return only the processed text without explanations." ] ;;;
  join prompt_parts.

(** A state with two lists alive, one of them named like the builder's. *)
Definition busy_world : world :=
  {| objects := [[str "left over"]; []];
     globals := [("prompt_parts"%string, PyStr (str "not a list"));
                 ("UPLOAD_FOLDER"%string, PyStr (str "uploads"))];
     random_state := 42%N |}.

Definition empty_world : world :=
  {| objects := []; globals := []; random_state := 0%N |}.


(** ** Further vocabulary *)

Section Submitted.
Context {U : Unicode}.

(** The form submits the level [n] under [name]: the field is present and
    [int] converts its first value to [n]. *)
Definition submits (data : form_data) (name : pystr) (n : Z) : Prop :=
  exists raw, get data name = Some raw /\ int_of_str raw = Ok n.

(** Every character of [s] is white space. *)
Definition blank (s : pystr) : Prop := Forall (fun c => isspace c = true) s.

End Submitted.

(** The range of a level. *)
Definition in_range (n : Z) : Prop := 0 <= n <= 10.

(** The levels of the records logged during a request, in order. *)
Definition records (trace : list event) : list level :=
  flat_map (fun ev => match ev with Logged l _ _ => [l] | Called _ => [] end) trace.

(** The [content] of the message with the role [user]. *)
Definition user_content (r : chat_request) : option pystr :=
  get (messages r) (str "user").

(** What the builder adds around a text when every level is in range: at
    most this many characters. *)
Definition prompt_overhead : Z := 681.



(** A file sent under another field name, and one sent without a name. *)
Definition misnamed_upload : request :=
  sending (levels "5" "5" "5" "5")
    [(str "document", {| filename := str "notes.txt";
                         content := bytes_of "Hello world" |})].

Definition levels_5 : form_data := levels "5" "5" "5" "5".

(** Three levels only: [formality] is not sent. *)
Definition three_levels : form_data :=
  [(str "faithfulness", str "5"); (str "human_like", str "5"); (str "ai_like", str "5")].

(** The levels in range. *)
Definition the_levels : list Z := [0; 1; 2; 3; 4; 5; 6; 7; 8; 9; 10].

(** The least number of characters the builder adds around a text. *)
Definition prompt_overhead_min : Z := 608.

(** The characters a parameter's block adds besides its fixed heading: the
    digits of the level and the directive. *)
Definition block_size (p : parameter) (n : Z) : Z :=
  len (str_of_int n)
  + len (if n <=? 2 then directive p Low
         else if n <=? 5 then directive p Mid else directive p High).

(** The least and the greatest size of a parameter's block for the levels
    in range. *)
Definition block_bounds (p : parameter) : Z * Z :=
  match p with
  | Faithfulness => (79, 88)
  | Human_like => (64, 84)
  | Ai_like => (56, 78)
  | Formality => (54, 76)
  end.

Definition blocks_in_bounds : bool :=
  forallb (fun p => forallb (fun n =>
    (fst (block_bounds p) <=? block_size p n)
    && (block_size p n <=? snd (block_bounds p))) the_levels)
    [Faithfulness; Human_like; Ai_like; Formality].

(** The character that follows the level in a heading. *)
Definition slash : N := 47%N.

Unset Implicit Arguments.

Arguments str : simpl never.
Arguments str_of_int : simpl never.

(** ** Properties of the builtins *)

Lemma str_eqb_eq (a b : pystr) : str_eqb a b = true <-> a = b.
Proof.
  revert b; induction a as [|x a IH]; intros [|y b]; simpl; split;
    try discriminate; try reflexivity.
  - intros H. apply andb_true_iff in H as [Hx Hab].
    apply N.eqb_eq in Hx. apply IH in Hab. congruence.
  - intros H. injection H as -> ->.
    rewrite N.eqb_refl. simpl. now apply IH.
Qed.

Lemma truthy_false (s : pystr) : truthy s = false <-> s = [].
Proof. destruct s; simpl; split; congruence. Qed.

Lemma truthy_true (s : pystr) : truthy s = true <-> s <> [].
Proof. destruct s; simpl; split; congruence. Qed.

Section BuiltinFacts.
Context {U : Unicode}.

Lemma unsigned_of_str_raises (s : pystr) (e : exception) :
  unsigned_of_str s = Raised e -> e = ValueError.
Proof.
  unfold unsigned_of_str.
  destruct (leading underscore s); [congruence|].
  destruct (digits_loop s 0%N 0 0%nat) as [[[value count] rest]|]; [|congruence].
  destruct (Nat.eqb count 0); [congruence|].
  destruct (truthy (dropwhile ascii_isspace rest)); [congruence|].
  destruct (Nat.ltb max_str_digits count); congruence.
Qed.

(** [int] raises nothing but [ValueError] and [TypeError]. *)
Lemma py_int_raises (v : pyval) (e : exception) :
  py_int v = Raised e -> e = ValueError \/ e = TypeError.
Proof.
  destruct v as [|z|s]; simpl.
  - intros [= <-]. now right.
  - discriminate.
  - unfold int_of_str. intros H. left.
    destruct (leading plus _).
    + now apply unsigned_of_str_raises in H.
    + destruct (leading minus _).
      * destruct (unsigned_of_str _) eqn:E; [discriminate|].
        injection H as <-. now apply unsigned_of_str_raises in E.
      * now apply unsigned_of_str_raises in H.
Qed.

End BuiltinFacts.

(** *** The builtins at work *)

Example int_of_padded_signed : int_of_str (str " +1_0 ") = Ok 10.
Proof. reflexivity. Qed.

Example int_of_negative : int_of_str (str "-7") = Ok (-7).
Proof. reflexivity. Qed.

Example int_rejects_text :
  map int_of_str [str ""; str "abc"; str "5.0"; str "1__0"; str "_1"; str "1_"; str "- 1"]
  = repeat (Raised ValueError) 7.
Proof. reflexivity. Qed.

Example int_of_none : py_int PyNone = Raised TypeError.
Proof. reflexivity. Qed.

Example utf8_euro : utf8_decode [226; 130; 172]%N = Some [8364%N].
Proof. reflexivity. Qed.

Example utf8_rejects :
  map utf8_decode [[255]; [192; 128]; [237; 160; 128]; [226; 130]]%N
  = repeat None 4.
Proof. reflexivity. Qed.

Example strip_both_ends : strip (nl ++ str "  a b ") = str "a b".
Proof. reflexivity. Qed.

Example allowed_files :
  map allowed_file [str "notes.txt"; str "READ.ME.MD"; str "report.pdf"; str "txt"; str "a."]
  = [true; true; false; false; false].
Proof. reflexivity. Qed.

Example level_as_text : map str_of_int [0; 7; 10; -3] = [str "0"; str "7"; str "10"; str "-3"].
Proof. reflexivity. Qed.

(** ** The validator *)

Section Validator.
Context {U : Unicode}.

Lemma validate_loop_pass (data : form_data) (name : pystr) (rest : list pystr) :
  verdict data name = None ->
  validate_loop data (name :: rest) = validate_loop data rest.
Proof.
  unfold verdict, get_default. simpl. unfold get_default.
  destruct (py_int _) as [n|e]; [|discriminate].
  destruct (Z.ltb_spec n 0); simpl; [discriminate|].
  destruct (Z.ltb_spec 10 n); [discriminate|]. intros _.
  replace (0 <=? n) with true by (symmetry; apply Z.leb_le; lia).
  replace (n <=? 10) with true by (symmetry; apply Z.leb_le; lia).
  reflexivity.
Qed.

Lemma validate_loop_fail (data : form_data) (name reason : pystr) (rest : list pystr) :
  verdict data name = Some reason ->
  validate_loop data (name :: rest) = Ok (false, Some reason).
Proof.
  unfold verdict. simpl. unfold get_default.
  destruct (py_int _) as [n|e] eqn:E.
  - destruct (Z.ltb_spec n 0); simpl.
    + intros [= <-].
      replace (0 <=? n) with false by (symmetry; apply Z.leb_gt; lia).
      reflexivity.
    + destruct (Z.ltb_spec 10 n); [|discriminate]. intros [= <-].
      replace (n <=? 10) with false by (symmetry; apply Z.leb_gt; lia).
      now rewrite andb_false_r.
  - intros [= <-]. now destruct (py_int_raises _ _ E) as [-> | ->].
Qed.

Lemma validate_loop_first_failure (data : form_data) (pre : list pystr)
  (name : pystr) (post : list pystr) (reason : pystr) :
  Forall (fun q => verdict data q = None) pre ->
  verdict data name = Some reason ->
  validate_loop data (pre ++ name :: post) = Ok (false, Some reason).
Proof.
  induction 1 as [|q pre Hq _ IH]; intros Hfail.
  - now apply validate_loop_fail.
  - rewrite <- app_comm_cons, validate_loop_pass by assumption. auto.
Qed.

Lemma validate_loop_all_pass (data : form_data) (params : list pystr) :
  Forall (fun q => verdict data q = None) params ->
  validate_loop data params = Ok (true, None).
Proof.
  induction 1 as [|q params Hq _ IH]; [reflexivity|].
  now rewrite validate_loop_pass.
Qed.

(** The validator answers; it never raises. *)
Lemma validate_loop_total (data : form_data) (params : list pystr) :
  validate_loop data params = Ok (true, None)
  \/ exists reason, validate_loop data params = Ok (false, Some reason) /\ reason <> [].
Proof.
  induction params as [|q params IH]; [now left|].
  destruct (verdict data q) as [reason|] eqn:E.
  - right. exists reason. split; [now apply validate_loop_fail|].
    revert E. unfold verdict. destruct (py_int _) as [n|e].
    + destruct ((n <? 0) || (10 <? n)); [|discriminate].
      intros [= <-]. intros H. apply app_eq_nil in H as [_ H]. discriminate H.
    + intros [= <-]. intros H. apply app_eq_nil in H as [_ H]. discriminate H.
  - now rewrite validate_loop_pass.
Qed.

(** C2.  The validator examines faithfulness, human_like, ai_like and
    formality in this order.  The reason it returns is that of the first
    parameter whose check fails, whatever the later fields hold: "<name>
    must be a valid number" when the conversion fails, "<name> must be
    between 0 and 10" when the number is out of range.  An absent field
    counts as the number 0 and passes.  When all four pass the result is
    [(True, None)]. *)
Theorem validate_slider_values_first_error (data : form_data) :
  required_params
    = [str "faithfulness"; str "human_like"; str "ai_like"; str "formality"]
  /\ (forall pre name post reason,
        required_params = pre ++ name :: post ->
        Forall (fun q => verdict data q = None) pre ->
        verdict data name = Some reason ->
        validate_slider_values data = Ok (false, Some reason)
        /\ (reason = name ++ str " must be a valid number"
            \/ reason = name ++ str " must be between 0 and 10")
        /\ forall data' : form_data,
             Forall (fun q => get data' q = get data q) (pre ++ [name]) ->
             validate_slider_values data' = Ok (false, Some reason))
  /\ (Forall (fun q => verdict data q = None) required_params ->
      validate_slider_values data = Ok (true, None))
  /\ (forall name, get data name = None -> verdict data name = None).
Proof.
  split; [reflexivity|]. split; [|split].
  - intros pre name post reason Hsplit Hpre Hfail.
    unfold validate_slider_values. rewrite Hsplit. split; [|split].
    + now apply validate_loop_first_failure.
    + revert Hfail. unfold verdict. destruct (py_int _) as [n|e].
      * destruct ((n <? 0) || (10 <? n)); [|discriminate].
        intros [= <-]. now right.
      * intros [= <-]. now left.
    + intros data' Hagree. apply Forall_app in Hagree as [Hagree Hname].
      apply validate_loop_first_failure.
      * clear Hsplit. induction Hpre as [|q pre Hq _ IH]; [constructor|].
        inversion Hagree as [|? ? Hq' Hrest]; subst.
        constructor; [|now apply IH].
        unfold verdict in *. now rewrite Hq'.
      * inversion Hname as [|? ? Hn _]; subst.
        unfold verdict in *. now rewrite Hn.
  - intros Hall. now apply validate_loop_all_pass.
  - intros name Habsent. unfold verdict. now rewrite Habsent.
Qed.

End Validator.

(** ** The prompt builder *)

Lemma concat_includes (d : pystr) (parts : list pystr) :
  In d parts -> exists pre post, List.concat parts = pre ++ d ++ post.
Proof.
  intros H. apply in_split in H as (l1 & l2 & ->).
  exists (List.concat l1), (List.concat l2).
  now rewrite concat_app.
Qed.

(** The parts of the prompt, one by one. *)
Lemma prompt_parts_eq (text : pystr) (f h a fo : Z) :
  prompt_parts text f h a fo =
  [ preamble;
    nl ++ str "**Faithfulness to Original (Level " ++ str_of_int f ++ str "/10):**";
    (if f <=? 2 then directive Faithfulness Low
     else if f <=? 5 then directive Faithfulness Mid else directive Faithfulness High);
    nl ++ str "**Human-like Sound (Level " ++ str_of_int h ++ str "/10):**";
    (if h <=? 2 then directive Human_like Low
     else if h <=? 5 then directive Human_like Mid else directive Human_like High);
    nl ++ str "**AI-like Sound (Level " ++ str_of_int a ++ str "/10):**";
    (if a <=? 2 then directive Ai_like Low
     else if a <=? 5 then directive Ai_like Mid else directive Ai_like High);
    nl ++ str "**Formality Level (Level " ++ str_of_int fo ++ str "/10):**";
    (if fo <=? 2 then directive Formality Low
     else if fo <=? 5 then directive Formality Mid else directive Formality High);
    nl ++ str "**Text to process:**";
    nl ++ text;
    closing ].
Proof. reflexivity. Qed.

(** The sentence chosen by a three-way test is the sentence of the band. *)
Lemma chosen_band (p : parameter) (v : Z) (b : band) :
  (if v <=? 2 then directive p Low
   else if v <=? 5 then directive p Mid else directive p High) = directive p b
  <-> in_band b v.
Proof.
  destruct (Z.leb_spec v 2); [|destruct (Z.leb_spec v 5)];
    destruct p, b; simpl; (split; [intros E; try lia; (vm_compute in E; discriminate E) | intros; try lia; reflexivity]).
Qed.

Lemma chosen_other (p q : parameter) (v : Z) (b : band) :
  p <> q ->
  (if v <=? 2 then directive q Low
   else if v <=? 5 then directive q Mid else directive q High) <> directive p b.
Proof.
  intros Hpq E.
  destruct (v <=? 2); [|destruct (v <=? 5)];
    destruct p, q, b; try congruence; vm_compute in E; discriminate E.
Qed.

Lemma heading_not_directive (s : pystr) (p : parameter) (b : band) :
  nl ++ s <> directive p b.
Proof. destruct p, b; intros E; vm_compute in E; discriminate E. Qed.

Lemma fixed_not_directive (p : parameter) (b : band) :
  preamble <> directive p b /\ closing <> directive p b.
Proof. split; destruct p, b; intros E; vm_compute in E; discriminate E. Qed.

(** C1.  For every integer level, and so for each of 0..10, and for each of
    the four parameters, the builder puts the low-band directive of the
    parameter into the prompt exactly when the level is at most 2, the
    mid-band directive exactly when it is between 3 and 5, and the
    high-band directive exactly when it is at least 6.  The directive put
    into the list of parts is a contiguous piece of the prompt. *)
Theorem band_directive_selected (text : pystr) (faithfulness human_like ai_like formality : Z)
  (p : parameter) (b : band) :
  (In (directive p b) (prompt_parts text faithfulness human_like ai_like formality)
   <-> in_band b (value_of p faithfulness human_like ai_like formality))
  /\ (in_band b (value_of p faithfulness human_like ai_like formality) <->
      nth_error (prompt_parts text faithfulness human_like ai_like formality)
        (match p with Faithfulness => 2 | Human_like => 4 | Ai_like => 6 | Formality => 8 end)
      = Some (directive p b))
  /\ (In (directive p b) (prompt_parts text faithfulness human_like ai_like formality) ->
      exists pre post,
        create_processing_prompt text faithfulness human_like ai_like formality
        = pre ++ directive p b ++ post).
Proof.
  split; [|split].
  - rewrite prompt_parts_eq. split.
    + intros H. cbn [In] in H.
      destruct (fixed_not_directive p b) as [Hpre Hclo].
      pose proof (@heading_not_directive) as Hhead.
      destruct H as [H|[H|[H|[H|[H|[H|[H|[H|[H|[H|[H|[H|[]]]]]]]]]]]]];
        try (exfalso; first [ exact (Hpre H) | exact (Hclo H) | exact (Hhead _ _ _ H) ]).
      all: destruct p;
        first [ apply chosen_band in H; exact H
              | exfalso; refine (chosen_other _ _ _ _ _ H); discriminate ].
    + intros H.
      pose proof (proj2 (chosen_band p _ b) H) as E.
      destruct p; cbn [value_of] in E; rewrite E; cbn [In]; auto 12.
  - rewrite prompt_parts_eq.
    rewrite <- (chosen_band p _ b).
    destruct p; cbn [nth_error value_of];
      (split; [intros E; f_equal; exact E | intros [= E]; exact E]).
  - apply concat_includes.
Qed.

Lemma some_band_chosen (p : parameter) (v : Z) :
  exists b : band,
    in_band b v
    /\ (if v <=? 2 then directive p Low
        else if v <=? 5 then directive p Mid else directive p High) = directive p b.
Proof.
  destruct (Z.leb_spec v 2); [exists Low; now split|].
  destruct (Z.leb_spec v 5); [exists Mid|exists High]; split;
    simpl; try reflexivity; lia.
Qed.

(** C6.  Whatever the levels and the text, the prompt is, in this order:
    the fixed preamble; one block for each of faithfulness, human_like,
    ai_like and formality, made of a heading that shows "Level n/10" with
    the parameter's own level and of the directive of the level's band; the
    heading of the text section followed by the input text itself,
    unchanged and in one piece; the fixed closing instruction. *)
Theorem prompt_layout (text : pystr) (faithfulness human_like ai_like formality : Z) :
  exists b1 b2 b3 b4 : band,
    in_band b1 faithfulness /\ in_band b2 human_like
    /\ in_band b3 ai_like /\ in_band b4 formality
    /\ create_processing_prompt text faithfulness human_like ai_like formality
    = preamble
      ++ block Faithfulness faithfulness b1
      ++ block Human_like human_like b2
      ++ block Ai_like ai_like b3
      ++ block Formality formality b4
      ++ text_heading ++ text ++ closing.
Proof.
  unfold create_processing_prompt. rewrite prompt_parts_eq.
  destruct (some_band_chosen Faithfulness faithfulness) as (b1 & H1 & ->).
  destruct (some_band_chosen Human_like human_like) as (b2 & H2 & ->).
  destruct (some_band_chosen Ai_like ai_like) as (b3 & H3 & ->).
  destruct (some_band_chosen Formality formality) as (b4 & H4 & ->).
  exists b1, b2, b3, b4. repeat (split; [assumption|]).
  unfold block, text_heading. cbn [List.concat].
  repeat rewrite <- app_assoc. rewrite app_nil_r.
  reflexivity.
Qed.

(** ** Running programs *)

Lemma run_try_except {A} (provider : chat_request -> result chat_response)
  (p : prog A) (handler : exception -> prog A) :
  run provider (try_except p handler)
  = match run provider p with
    | (t, Ok a) => (t, Ok a)
    | (t, Raised e) =>
        let '(t', r) := run provider (handler e) in (t ++ t', r)
    end.
Proof.
  induction p as [a|e|r k IH|l msg e k IH]; simpl.
  - reflexivity.
  - now destruct (run provider (handler e)).
  - rewrite IH. destruct (run provider (k (provider r))) as [t [a|e]];
      [reflexivity|]. now destruct (run provider (handler e)).
  - rewrite IH. destruct (run provider k) as [t [a|e']];
      [reflexivity|]. now destruct (run provider (handler e')).
Qed.

Lemma run_bind {A B} (provider : chat_request -> result chat_response)
  (p : prog A) (f : A -> prog B) :
  run provider (bind p f)
  = match run provider p with
    | (t, Ok a) => let '(t', r) := run provider (f a) in (t ++ t', r)
    | (t, Raised e) => (t, Raised e)
    end.
Proof.
  induction p as [a|e|r k IH|l msg e k IH]; simpl.
  - now destruct (run provider (f a)).
  - reflexivity.
  - rewrite IH. destruct (run provider (k (provider r))) as [t [a|e]];
      [|reflexivity]. now destruct (run provider (f a)).
  - rewrite IH. destruct (run provider k) as [t [a|e']];
      [|reflexivity]. now destruct (run provider (f a)).
Qed.

(** ** The handler *)

Lemma not_too_long (text : pystr) : len text <= 10000 -> (len text >? 10000) = false.
Proof. intros H. rewrite Z.gtb_ltb. now apply Z.ltb_ge. Qed.

Section Handler.
Context {U : Unicode}.

(** The provider is called once and its outcome is mapped to a response. *)
Lemma run_call_provider (provider : chat_request -> result chat_response)
  (text prompt : pystr) (f h a fo : Z) :
  run provider (call_provider text prompt f h a fo)
  = let r := completion_request prompt in
    let failed e :=
      ([Called r; Logged ERROR (str "OpenAI API error: ") (Some e)],
       Ok provider_failed) in
    match provider r with
    | Raised (RateLimitError _) => ([Called r], Ok provider_rate_limited)
    | Raised (InvalidRequestError msg) =>
        ([Called r], Ok (failure (str "Invalid request: " ++ msg) 400))
    | Raised e => failed e
    | Ok [] => failed IndexError
    | Ok (None :: _) => failed AttributeError
    | Ok (Some content :: _) =>
        ([Called r;
          Logged INFO
            (str "Text processed successfully. Length: " ++ str_of_int (len text)
             ++ str " -> " ++ str_of_int (len (strip content))) None],
         Ok (success text (strip content) f h a fo))
    end.
Proof.
  unfold call_provider. cbn [try_except run].
  destruct (provider (completion_request prompt)) as [[|[content|] rest]|e];
    try reflexivity.
  destruct e; reflexivity.
Qed.

Lemma process_text_not_configured (cfg : config) (req : request) :
  key_configured cfg = false -> process_text cfg req = Return not_configured.
Proof. unfold process_text. now intros ->. Qed.

Lemma process_text_unresolved (cfg : config) (req : request) (r : response) :
  key_configured cfg = true -> resolve_text req = Respond r ->
  process_text cfg req = Return r.
Proof. unfold process_text. now intros -> ->. Qed.

Lemma process_text_unreadable (cfg : config) (req : request) (e : exception) :
  key_configured cfg = true -> resolve_text req = Raises e ->
  process_text cfg req
  = Log ERROR (str "Unexpected error in process_text: ") (Some e) (Return unexpected).
Proof. unfold process_text. now intros -> ->. Qed.

Lemma process_text_too_long (cfg : config) (req : request) (text : pystr) :
  key_configured cfg = true -> resolve_text req = Continue text ->
  10000 < len text ->
  process_text cfg req = Return too_long.
Proof.
  unfold process_text. intros -> -> Hlen.
  apply Z.gtb_lt in Hlen. cbn [negb]. now rewrite Hlen.
Qed.

Lemma process_text_invalid (cfg : config) (req : request) (text : pystr)
  (error_msg : option pystr) :
  key_configured cfg = true -> resolve_text req = Continue text ->
  len text <= 10000 ->
  validate_slider_values (form req) = Ok (false, error_msg) ->
  process_text cfg req
  = Return (Response (jsonify [("success"%string, JBool false);
                               ("error"%string, json_of_option error_msg)]) 400).
Proof.
  unfold process_text. intros -> -> Hlen ->.
  rewrite (not_too_long _ Hlen).
  reflexivity.
Qed.

Lemma process_text_conversion_raises (cfg : config) (req : request) (text : pystr)
  (error_msg : option pystr) (e : exception) :
  key_configured cfg = true -> resolve_text req = Continue text ->
  len text <= 10000 ->
  validate_slider_values (form req) = Ok (true, error_msg) ->
  sliders req = Raised e ->
  process_text cfg req
  = Log ERROR (str "Unexpected error in process_text: ") (Some e) (Return unexpected).
Proof.
  unfold process_text, sliders, slider. intros -> -> Hlen -> H.
  rewrite (not_too_long _ Hlen).
  cbn [negb lift bind].
  destruct (py_int (get_default (form req) (str "faithfulness") PyNone));
    [|injection H as ->; reflexivity].
  cbn [negb lift bind].
  destruct (py_int (get_default (form req) (str "human_like") PyNone));
    [|injection H as ->; reflexivity].
  cbn [negb lift bind].
  destruct (py_int (get_default (form req) (str "ai_like") PyNone));
    [|injection H as ->; reflexivity].
  cbn [negb lift bind].
  destruct (py_int (get_default (form req) (str "formality") PyNone));
    [discriminate|injection H as ->; reflexivity].
Qed.

Lemma process_text_calls (provider : chat_request -> result chat_response)
  (cfg : config) (req : request) (text : pystr)
  (error_msg : option pystr) (f h a fo : Z) :
  key_configured cfg = true -> resolve_text req = Continue text ->
  len text <= 10000 ->
  validate_slider_values (form req) = Ok (true, error_msg) ->
  sliders req = Ok (f, h, a, fo) ->
  run provider (process_text cfg req)
  = run provider
      (call_provider text (create_processing_prompt text f h a fo) f h a fo).
Proof.
  unfold process_text, sliders, slider. intros -> -> Hlen -> H.
  rewrite (not_too_long _ Hlen).
  cbn [negb lift bind].
  destruct (py_int (get_default (form req) (str "faithfulness") PyNone));
    [|discriminate].
  destruct (py_int (get_default (form req) (str "human_like") PyNone));
    [|discriminate].
  destruct (py_int (get_default (form req) (str "ai_like") PyNone));
    [|discriminate].
  destruct (py_int (get_default (form req) (str "formality") PyNone));
    [|discriminate].
  injection H as -> -> -> ->. cbn [lift bind].
  rewrite run_try_except, run_call_provider.
  cbv zeta.
  destruct (provider _) as [[|[content|] rest]|e]; try reflexivity.
  destruct e; reflexivity.
Qed.

End Handler.

(** ** Reading the request *)

Section Reading.
Context {U : Unicode}.

Lemma readable_dec (req : request) : readable req \/ ~ readable req.
Proof.
  unfold readable. destruct (read_error req); [right; now intros (_ & H)|].
  destruct (Z_le_gt_dec (content_length req) MAX_CONTENT_LENGTH); [now left|].
  right. intros (H & _). lia.
Qed.

Lemma read_form_readable (req : request) : readable req -> read_form req = Ok (form req).
Proof.
  intros (Hlen & Herr). unfold read_form. rewrite Herr.
  rewrite Z.gtb_ltb. now rewrite (proj2 (Z.ltb_ge _ _) Hlen).
Qed.

Lemma read_form_raises (req : request) (e : exception) :
  read_form req = Raised e -> ~ readable req.
Proof. intros H Hr. rewrite (read_form_readable req Hr) in H. discriminate H. Qed.

Lemma read_form_ok (req : request) (data : form_data) :
  read_form req = Ok data -> data = form req /\ readable req.
Proof.
  unfold read_form, readable.
  destruct (Z.gtb_spec (content_length req) MAX_CONTENT_LENGTH); [discriminate|].
  destruct (read_error req); [discriminate|]. intros [= <-]. repeat split. lia.
Qed.

Lemma read_form_too_large (req : request) :
  MAX_CONTENT_LENGTH < content_length req ->
  read_form req = Raised RequestEntityTooLarge.
Proof. intros H. unfold read_form. apply Z.gtb_lt in H. now rewrite H. Qed.

Lemma unreadable_raises (req : request) :
  ~ readable req -> exists e, read_form req = Raised e.
Proof.
  intros Hr. destruct (read_form req) as [data|e] eqn:E; [|now exists e].
  apply read_form_ok in E as [_ E]. contradiction.
Qed.

(** The text of a request, in terms of the text field and of the upload
    that is read. *)
Lemma resolve_text_eq (req : request) :
  resolve_text req
  = match read_form req with
    | Raised e => Raises e
    | Ok _ =>
    match upload req with
    | Some file =>
        match utf8_decode (content file) with
        | None => Respond bad_encoding
        | Some file_content =>
            match text_field req, file_content with
            | _ :: _, _ => Continue (text_field req)
            | [], _ :: _ => Continue file_content
            | [], [] => Respond no_input
            end
        end
    | None =>
        match text_field req with
        | _ :: _ => Continue (text_field req)
        | [] => Respond no_input
        end
    end
    end.
Proof.
  unfold resolve_text. destruct (read_form req) as [data|e] eqn:E; [|reflexivity].
  apply read_form_ok in E as [-> _].
  unfold upload, text_field, file_truthy.
  set (field := strip _).
  destruct (get (files req) (str "file")) as [file|].
  - destruct (truthy (filename file)); cbn [andb].
    + destruct (allowed_file (filename file)).
      * destruct (utf8_decode (content file)) as [file_content|]; [|reflexivity].
        destruct field; [destruct file_content|]; reflexivity.
      * destruct field; reflexivity.
    + destruct field; reflexivity.
  - destruct field; reflexivity.
Qed.

(** The resolution of a text that can be read. *)
Lemma resolve_text_read (req : request) :
  readable req ->
  resolve_text req
  = match upload req with
    | Some file =>
        match utf8_decode (content file) with
        | None => Respond bad_encoding
        | Some file_content =>
            match text_field req, file_content with
            | _ :: _, _ => Continue (text_field req)
            | [], _ :: _ => Continue file_content
            | [], [] => Respond no_input
            end
        end
    | None =>
        match text_field req with
        | _ :: _ => Continue (text_field req)
        | [] => Respond no_input
        end
    end.
Proof. intros Hr. now rewrite resolve_text_eq, (read_form_readable req Hr). Qed.

(** The resolution of the text raises what reading the request raises,
    and nothing else. *)
Lemma resolve_text_raises (req : request) (e : exception) :
  resolve_text req = Raises e <-> read_form req = Raised e.
Proof.
  rewrite resolve_text_eq. destruct (read_form req) as [data|e'].
  - split; [|discriminate].
    destruct (upload req) as [file|].
    + destruct (utf8_decode (content file)) as [file_content|]; [|discriminate].
      destruct (text_field req); [destruct file_content|]; discriminate.
    + destruct (text_field req); discriminate.
  - split; now intros [= <-].
Qed.

Lemma resolve_text_readable (req : request) (s : step pystr) :
  resolve_text req = s -> (forall e, s <> Raises e) -> readable req.
Proof.
  intros Hs Hno. destruct (readable_dec req) as [Hr|Hr]; [assumption|].
  destruct (unreadable_raises req Hr) as [e He].
  contradiction (Hno e). rewrite <- Hs. now apply resolve_text_raises.
Qed.

Lemma resolve_text_responses (req : request) (r : response) :
  resolve_text req = Respond r -> r = bad_encoding \/ r = no_input.
Proof.
  rewrite resolve_text_eq. destruct (read_form req); [|discriminate].
  destruct (upload req) as [file|].
  - destruct (utf8_decode (content file)) as [file_content|].
    + destruct (text_field req); [destruct file_content|];
        first [discriminate | intros [= <-]; now right].
    + intros [= <-]. now left.
  - destruct (text_field req); [intros [= <-]; now right | discriminate].
Qed.

End Reading.

Section Requests.
Context {U : Unicode}.

(** Every request is handled in one of the six ways of [handled]. *)
Lemma process_text_handled (provider : chat_request -> result chat_response)
  (cfg : config) (req : request) :
  handled provider cfg req (run provider (process_text cfg req)).
Proof.
  destruct (key_configured cfg) eqn:Hkey.
  2: { rewrite process_text_not_configured by assumption. now constructor. }
  destruct (resolve_text req) as [text|r|e] eqn:Hres.
  2: { rewrite (process_text_unresolved _ _ r) by assumption.
       now apply handled_unresolved. }
  2: { rewrite (process_text_unreadable _ _ e) by assumption.
       now apply handled_unreadable. }
  destruct (Z_le_gt_dec (len text) 10000) as [Hlen|Hlen].
  2: { rewrite (process_text_too_long _ _ text) by (assumption || lia).
       apply handled_too_long with text; (assumption || lia). }
  destruct (validate_loop_total (form req) required_params)
    as [Hval|(reason & Hval & Hne)].
  2: { rewrite (process_text_invalid _ _ text (Some reason)) by assumption.
       now apply handled_invalid with text. }
  destruct (sliders req) as [[[[f h] a] fo]|e] eqn:Hsl.
  - rewrite (process_text_calls provider _ _ text None f h a fo) by assumption.
    now apply handled_call.
  - rewrite (process_text_conversion_raises _ _ text None e) by assumption.
    now apply handled_conversion with text.
Qed.

(** The events and the result of the call of the provider. *)
Lemma call_provider_outcome (provider : chat_request -> result chat_response)
  (text prompt : pystr) (f h a fo : Z) :
  exists (trace : list event) (resp : response),
    run provider (call_provider text prompt f h a fo) = (trace, Ok resp)
    /\ calls trace = [completion_request prompt]
    /\ (resp = provider_rate_limited
        \/ (exists msg, resp = failure (str "Invalid request: " ++ msg) 400)
        \/ resp = provider_failed
        \/ exists processed, resp = success text processed f h a fo).
Proof.
  rewrite run_call_provider. cbv zeta.
  destruct (provider _) as [[|[content|] rest]|e].
  - eexists _, _. split; [reflexivity|]. split; [reflexivity|]. auto.
  - eexists _, _. split; [reflexivity|]. split; [reflexivity|]. eauto 6.
  - eexists _, _. split; [reflexivity|]. split; [reflexivity|]. auto.
  - destruct e; eexists _, _; (split; [reflexivity|]); (split; [reflexivity|]);
      eauto 6.
Qed.

End Requests.

Section Stages.
Context {U : Unicode}.

Lemma handled_calls (provider : chat_request -> result chat_response)
  (cfg : config) (req : request) (out : list event * result response) :
  handled provider cfg req out ->
  forall r, In r (calls (fst out)) ->
  exists text f h a fo,
    key_configured cfg = true
    /\ resolve_text req = Continue text
    /\ len text <= 10000
    /\ validate_slider_values (form req) = Ok (true, None)
    /\ sliders req = Ok (f, h, a, fo)
    /\ r = completion_request (create_processing_prompt text f h a fo)
    /\ calls (fst out) = [r].
Proof.
  intros [Hkey|r0 Hkey Hres|text Hkey Hres Hlen|text reason Hkey Hres Hlen Hval Hne
         |text e Hkey Hres Hlen Hval Hsl|text f h a fo Hkey Hres Hlen Hval Hsl
         |e Hkey Hres] r Hin;
    try (simpl in Hin; contradiction).
  destruct (call_provider_outcome provider text
              (create_processing_prompt text f h a fo) f h a fo)
    as (trace & resp & Hrun & Hcalls & _).
  rewrite Hrun in *. cbn [fst] in *. rewrite Hcalls in *.
  destruct Hin as [<-|[]].
  exists text, f, h, a, fo. auto 10.
Qed.


End Stages.

(** ** The envelope *)

Lemma failure_is_envelope (msg : pystr) (code : Z) :
  msg <> [] -> envelope (failure msg code) /\ failure_envelope (failure msg code).
Proof.
  intros Hmsg. split; [split|split].
  - now exists false.
  - unfold present. cbn. split; [discriminate|].
    intros (H & _). now contradiction H.
  - reflexivity.
  - now exists msg.
Qed.

Lemma success_is_envelope (text processed : pystr) (f h a fo : Z) :
  envelope (success text processed f h a fo)
  /\ member "success" (success text processed f h a fo) = Some (JBool true).
Proof.
  split; [split|reflexivity].
  - now exists true.
  - unfold present. cbn. split; [|reflexivity].
    intros _. repeat split; try discriminate. intros H. now apply H.
Qed.

Section Envelope.
Context {U : Unicode}.

(** The conditions under which a request is rewritten. *)
Lemma handled_success (provider : chat_request -> result chat_response)
  (cfg : config) (req : request) :
  exists trace resp,
    run provider (process_text cfg req) = (trace, Ok resp)
    /\ envelope resp
    /\ (member "success" resp = Some (JBool true)
        <-> key_configured cfg = true
            /\ exists text f h a fo content rest,
                 resolve_text req = Continue text
                 /\ len text <= 10000
                 /\ validate_slider_values (form req) = Ok (true, None)
                 /\ sliders req = Ok (f, h, a, fo)
                 /\ provider (completion_request
                                (create_processing_prompt text f h a fo))
                    = Ok (Some content :: rest))
    /\ (member "success" resp <> Some (JBool true) -> failure_envelope resp).
Proof.
  assert (F : forall msg code, msg <> [] ->
            envelope (failure msg code)
            /\ (member "success" (failure msg code) = Some (JBool true) <-> False)
            /\ failure_envelope (failure msg code)).
  { intros msg code Hmsg. destruct (failure_is_envelope msg code Hmsg) as [H1 H2].
    split; [assumption|]. split; [|assumption]. split; [discriminate|contradiction]. }
  destruct (process_text_handled provider cfg req)
    as [Hkey|r0 Hkey Hres|text Hkey Hres Hlen|text reason Hkey Hres Hlen Hval Hne
       |text e Hkey Hres Hlen Hval Hsl|text f h a fo Hkey Hres Hlen Hval Hsl
       |e Hkey Hres].
  - eexists _, _. split; [reflexivity|].
    destruct (F (str "OpenAI API key not configured. Please contact administrator.") 500)
      as (H1 & H2 & H3); [discriminate|].
    split; [exact H1|]. split; [|intros _; exact H3].
    rewrite H2. split; [contradiction|]. intros (Hk & _). congruence.
  - eexists _, _. split; [reflexivity|].
    assert (H : envelope r0
                /\ (member "success" r0 = Some (JBool true) <-> False)
                /\ failure_envelope r0).
    { destruct (resolve_text_responses _ _ Hres) as [-> | ->]; apply F; discriminate. }
    destruct H as (H1 & H2 & H3).
    split; [exact H1|]. split; [|intros _; exact H3].
    rewrite H2. split; [contradiction|].
    intros (_ & text & f & h & a & fo & content & rest & Hres' & _). congruence.
  - eexists _, _. split; [reflexivity|].
    destruct (F (str "Text input too long. Maximum 10,000 characters allowed.") 400)
      as (H1 & H2 & H3); [discriminate|].
    split; [exact H1|]. split; [|intros _; exact H3].
    rewrite H2. split; [contradiction|].
    intros (_ & text' & f & h & a & fo & content & rest & Hres' & Hlen' & _).
    assert (text' = text) by congruence. subst. lia.
  - eexists _, _. split; [reflexivity|].
    destruct (F reason 400 Hne) as (H1 & H2 & H3).
    split; [exact H1|]. split; [|intros _; exact H3].
    rewrite H2. split; [contradiction|].
    intros (_ & text' & f & h & a & fo & content & rest & _ & _ & Hval' & _).
    congruence.
  - eexists _, _. split; [reflexivity|].
    destruct (F (str "An unexpected error occurred. Please try again.") 500)
      as (H1 & H2 & H3); [discriminate|].
    split; [exact H1|]. split; [|intros _; exact H3].
    rewrite H2. split; [contradiction|].
    intros (_ & text' & f & h & a & fo & content & rest & _ & _ & _ & Hsl' & _).
    congruence.
  - rewrite run_call_provider. cbv zeta.
    assert (K : forall r0 : response,
              envelope r0
              /\ (member "success" r0 = Some (JBool true) <-> False)
              /\ failure_envelope r0 ->
              (forall content rest,
                 provider (completion_request (create_processing_prompt text f h a fo))
                 <> Ok (Some content :: rest)) ->
              envelope r0
              /\ (member "success" r0 = Some (JBool true)
                  <-> key_configured cfg = true
                      /\ exists text f h a fo content rest,
                           resolve_text req = Continue text
                           /\ len text <= 10000
                           /\ validate_slider_values (form req) = Ok (true, None)
                           /\ sliders req = Ok (f, h, a, fo)
                           /\ provider (completion_request
                                          (create_processing_prompt text f h a fo))
                              = Ok (Some content :: rest))
              /\ (member "success" r0 <> Some (JBool true) -> failure_envelope r0)).
    { intros r0 (H1 & H2 & H3) Hno.
      split; [exact H1|]. split; [|intros _; exact H3].
      rewrite H2. split; [contradiction|].
      intros (_ & text' & f' & h' & a' & fo' & content & rest
              & Hres' & _ & _ & Hsl' & Hprov').
      assert (text' = text) by congruence. subst text'.
      assert (E : (f', h', a', fo') = (f, h, a, fo)) by congruence.
      injection E as -> -> -> ->. exact (Hno content rest Hprov'). }
    destruct (provider (completion_request (create_processing_prompt text f h a fo)))
      as [[|[content|] rest]|e] eqn:Hprov.
    + eexists _, _. split; [reflexivity|].
      apply K; [apply F|]; discriminate.
    + eexists _, _. split; [reflexivity|].
      destruct (success_is_envelope text (strip content) f h a fo) as [H1 H2].
      split; [exact H1|]. split; [|intros H; contradiction].
      split; [|intros _; exact H2]. intros _. split; [assumption|].
      exists text, f, h, a, fo, content, rest. auto.
    + eexists _, _. split; [reflexivity|].
      apply K; [apply F|]; discriminate.
    + destruct e; eexists _, _; (split; [reflexivity|]);
        (apply K; [apply F|]; discriminate).
  - eexists _, _. split; [reflexivity|].
    destruct (F (str "An unexpected error occurred. Please try again.") 500)
      as (H1 & H2 & H3); [discriminate|].
    split; [exact H1|]. split; [|intros _; exact H3].
    rewrite H2. split; [contradiction|].
    intros (_ & text' & f & h & a & fo & content & rest & Hres' & _). congruence.
Qed.

(** C8.  Whatever the limiter decides, the configuration, the request and
    the behaviour of the provider, the route returns a response and raises
    nothing.  The body is an envelope in which [success] is true exactly
    when [processed_text] and [parameters] are present and [error] is
    absent.  [success] is true exactly when the limiter lets the request
    pass, the credential is configured, the text resolves to at most
    10,000 characters, the parameters validate and convert, and the
    provider answers with a first choice that has content; on every other
    path (limiter, credential, unreadable body, input, length, parameter,
    conversion, any failure of the provider) [success] is false and
    [error] is a non-empty text.  The handler of 413 answers in the same
    way. *)
Theorem envelope_invariant (provider : chat_request -> result chat_response)
  (limited : bool) (cfg : config) (req : request) :
  (exists (trace : list event) (resp : response),
     run provider (process_route limited cfg req) = (trace, Ok resp)
     /\ envelope resp
     /\ (member "success" resp = Some (JBool true)
         <-> limited = false
             /\ key_configured cfg = true
             /\ exists text f h a fo content rest,
                  resolve_text req = Continue text
                  /\ len text <= 10000
                  /\ validate_slider_values (form req) = Ok (true, None)
                  /\ sliders req = Ok (f, h, a, fo)
                  /\ provider (completion_request
                                 (create_processing_prompt text f h a fo))
                     = Ok (Some content :: rest))
     /\ (member "success" resp <> Some (JBool true) -> failure_envelope resp)
     /\ (limited = true -> resp = ratelimit_handler))
  /\ envelope too_large /\ failure_envelope too_large
  /\ envelope ratelimit_handler /\ failure_envelope ratelimit_handler.
Proof.
  split.
  - destruct limited.
    + exists [], ratelimit_handler. split; [reflexivity|].
      destruct (failure_is_envelope (str "Rate limit exceeded. Please try again later.") 429)
        as [H1 H2]; [discriminate|].
      split; [exact H1|]. split; [|split; [intros _; exact H2 | reflexivity]].
      split; [discriminate|]. intros (H & _). discriminate H.
    + cbn [process_route].
      destruct (handled_success provider cfg req) as (trace & resp & Hrun & H1 & H2 & H3).
      exists trace, resp. split; [assumption|]. split; [assumption|].
      split; [|split; [assumption|discriminate]].
      rewrite H2. split; [now intros H | now intros (_ & H)].
  - repeat split; try (apply failure_is_envelope; discriminate).
    all: try (now exists false); try (now exists (str "File too large. Maximum size is 16MB."));
      try (now exists (str "Rate limit exceeded. Please try again later.")).
Qed.

End Envelope.

(** ** Requests without levels *)

Section Omitted.
Context {U : Unicode}.

Lemma absent_passes (data : form_data) (params : list pystr) :
  Forall (fun name => get data name = None) params ->
  Forall (fun name => verdict data name = None) params.
Proof.
  intros H. eapply Forall_impl; [|exact H].
  intros name Hname. unfold verdict. now rewrite Hname.
Qed.

(** C3, as the code has it.  When the four level fields are all absent the
    validator accepts the form, and the conversion that follows raises
    [TypeError] on the first of them.  So, with the credential configured
    and a text that resolves to at most 10,000 characters, the request
    ends in the log of an unexpected error and the generic 500 response;
    and in every case the request ends in a failure envelope, without any
    call of the provider. *)
Theorem omitted_sliders_never_succeed (provider : chat_request -> result chat_response)
  (cfg : config) (req : request) :
  Forall (fun name => get (form req) name = None) required_params ->
  validate_slider_values (form req) = Ok (true, None)
  /\ sliders req = Raised TypeError
  /\ (forall text,
        key_configured cfg = true -> resolve_text req = Continue text ->
        len text <= 10000 ->
        process_text cfg req
        = Log ERROR (str "Unexpected error in process_text: ") (Some TypeError)
            (Return unexpected)
        /\ status unexpected = 500)
  /\ (exists trace resp,
        run provider (process_text cfg req) = (trace, Ok resp)
        /\ calls trace = [] /\ failure_envelope resp).
Proof.
  intros Habsent.
  assert (Hval : validate_slider_values (form req) = Ok (true, None)).
  { apply validate_loop_all_pass. now apply absent_passes. }
  assert (Hsl : sliders req = Raised TypeError).
  { inversion Habsent as [|? ? Hf _]; subst.
    unfold sliders, get_default. now rewrite Hf. }
  split; [assumption|]. split; [assumption|]. split.
  - intros text Hkey Hres Hlen. split; [|reflexivity].
    now apply process_text_conversion_raises with text None.
  - destruct (process_text_handled provider cfg req)
      as [Hkey|r0 Hkey Hres|text Hkey Hres Hlen|text reason Hkey Hres Hlen Hval' Hne
         |text e Hkey Hres Hlen Hval' Hsl'|text f h a fo Hkey Hres Hlen Hval' Hsl'
         |e Hkey Hres].
    + eexists _, _. split; [reflexivity|]. split; [reflexivity|]. apply failure_is_envelope. discriminate.
    + eexists _, _. split; [reflexivity|]. split; [reflexivity|].
      destruct (resolve_text_responses _ _ Hres) as [-> | ->];
        apply failure_is_envelope; discriminate.
    + eexists _, _. split; [reflexivity|]. split; [reflexivity|]. apply failure_is_envelope. discriminate.
    + congruence.
    + eexists _, _. split; [reflexivity|]. split; [reflexivity|]. apply failure_is_envelope. discriminate.
    + congruence.
    + eexists _, _. split; [reflexivity|]. split; [reflexivity|]. apply failure_is_envelope. discriminate.
Qed.

End Omitted.

(** ** The resolution of the text *)

Section Resolution.
Context {U : Unicode}.


End Resolution.

(** ** The outcome of the call *)

Section Outcome.
Context {U : Unicode}.

(** C9, as the code has it.  When the handler reaches the call: a
    rate-limit failure of the provider gives the 429 response asking to
    try again later; an invalid-request failure gives a 400 response that
    carries the provider's message; any other failure, and an answer
    without a first choice or without content, gives the generic 500
    response "Failed to process text", the same whatever the failure,
    which is written to the log only; an answer with content gives the
    success envelope with the input text, the stripped content and the
    four levels as integers. *)
Theorem provider_outcome_mapping (provider : chat_request -> result chat_response)
  (cfg : config) (req : request) (text : pystr) (f h a fo : Z) :
  key_configured cfg = true ->
  resolve_text req = Continue text ->
  len text <= 10000 ->
  validate_slider_values (form req) = Ok (true, None) ->
  sliders req = Ok (f, h, a, fo) ->
  let r := completion_request (create_processing_prompt text f h a fo) in
  let out := run provider (process_text cfg req) in
  let failed e :=
    ([Called r; Logged ERROR (str "OpenAI API error: ") (Some e)],
     Ok provider_failed) in
  (forall msg, provider r = Raised (RateLimitError msg) ->
     out = ([Called r], Ok provider_rate_limited))
  /\ (forall msg, provider r = Raised (InvalidRequestError msg) ->
        out = ([Called r], Ok (failure (str "Invalid request: " ++ msg) 400)))
  /\ (forall e, provider r = Raised e ->
        (forall msg, e <> RateLimitError msg) ->
        (forall msg, e <> InvalidRequestError msg) ->
        out = failed e)
  /\ (provider r = Ok [] -> out = failed IndexError)
  /\ (forall rest, provider r = Ok (None :: rest) -> out = failed AttributeError)
  /\ (forall content rest, provider r = Ok (Some content :: rest) ->
        out = ([Called r;
                Logged INFO
                  (str "Text processed successfully. Length: "
                   ++ str_of_int (len text) ++ str " -> "
                   ++ str_of_int (len (strip content))) None],
               Ok (success text (strip content) f h a fo)))
  /\ status provider_rate_limited = 429
  /\ status provider_failed = 500.
Proof.
  intros Hkey Hres Hlen Hval Hsl r out failed. subst out.
  rewrite (process_text_calls provider cfg req text None f h a fo) by assumption.
  rewrite run_call_provider. cbv zeta. fold r.
  repeat split.
  - intros msg ->. reflexivity.
  - intros msg ->. reflexivity.
  - intros e -> Hrate Hinv.
    destruct e; try reflexivity; [now contradiction (Hrate msg) | now contradiction (Hinv msg)].
  - intros ->. reflexivity.
  - intros rest ->. reflexivity.
  - intros content rest ->. reflexivity.
Qed.

(** C10, as the code has it.  In a body that can be read, an upload whose
    name has no allowed extension is not read: with an empty text field
    and the credential configured the request ends with the 400 response
    asking for a text or a file, the response of a request that sends no
    file at all; nothing in it names the file or its extension. *)
Theorem disallowed_upload_is_ignored (cfg : config) (req : request) (file : FileStorage) :
  key_configured cfg = true ->
  readable req ->
  text_field req = [] ->
  get (files req) (str "file") = Some file ->
  allowed_file (filename file) = false ->
  upload req = None
  /\ process_text cfg req = Return no_input
  /\ process_text cfg (without_files req) = Return no_input
  /\ status no_input = 400.
Proof.
  intros Hkey Hr Hfield Hfile Hext.
  assert (Hup : upload req = None).
  { unfold upload. rewrite Hfile, Hext. now rewrite andb_false_r. }
  split; [assumption|]. split; [|split; [|reflexivity]].
  - apply process_text_unresolved; [assumption|].
    rewrite (resolve_text_read req Hr), Hup, Hfield. reflexivity.
  - apply process_text_unresolved; [assumption|].
    assert (Hr' : readable (without_files req)) by exact Hr.
    rewrite (resolve_text_read _ Hr'). unfold upload, text_field in *.
    cbn [without_files files form get]. now rewrite Hfield.
Qed.

End Outcome.

(** ** The builder, statement by statement *)

Lemma update_at_last {A} (f : A -> A) (l : list A) (x : A) :
  update_at (List.length l) f (l ++ [x]) = l ++ [f x].
Proof. induction l as [|y l IH]; simpl; [reflexivity | now rewrite IH]. Qed.

Lemma nth_last {A} (l : list A) (x d : A) : nth (List.length l) (l ++ [x]) d = x.
Proof. induction l as [|y l IH]; simpl; [reflexivity | exact IH]. Qed.

(** A statement that extends the list just made. *)
Lemma extend_last (w : world) (l items : list pystr) :
  list_extend (List.length (objects w)) items
    {| objects := objects w ++ [l]; globals := globals w;
       random_state := random_state w |}
  = (tt, {| objects := objects w ++ [l ++ items]; globals := globals w;
            random_state := random_state w |}).
Proof. unfold list_extend. cbn [objects globals random_state]. now rewrite update_at_last. Qed.

(** A statement chosen by a three-way test appends the sentence chosen
    by the test. *)
Lemma append_chosen (c1 c2 : bool) (l : nat) (x y z : pystr) :
  (if c1 then list_append l x else if c2 then list_append l y else list_append l z)
  = list_extend l [if c1 then x else if c2 then y else z].
Proof. now destruct c1, c2. Qed.

(** The statements of the builder, run in any state: they return the
    prompt and leave one new list behind. *)
Lemma create_processing_prompt_steps_eq (text : pystr) (f h a fo : Z) (w : world) :
  create_processing_prompt_steps text f h a fo w
  = (create_processing_prompt text f h a fo,
     {| objects := objects w ++ [prompt_parts text f h a fo];
        globals := globals w;
        random_state := random_state w |}).
Proof.
  unfold create_processing_prompt_steps, and_then, new_list.
  rewrite !append_chosen. unfold list_append.
  cbv beta iota.
  repeat (rewrite extend_last; cbv beta iota).
  unfold join. cbn [objects]. rewrite nth_last.
  reflexivity.
Qed.

(** C7.  The builder is pure and deterministic.  Run statement by
    statement in any state of the program (the lists alive, the global
    names, the state of the random generator), it returns the same prompt
    for the same text and levels: the prompt of one call is that of a call
    in any other state, and that of the next call.  It reads and changes
    no global name and does not touch the random generator; the lists
    alive before the call are left as they were, and the only object it
    makes is its own list of parts. *)
Theorem prompt_deterministic (text : pystr) (f h a fo : Z) (w w' : world) :
  fst (create_processing_prompt_steps text f h a fo w)
  = fst (create_processing_prompt_steps text f h a fo w')
  /\ fst (create_processing_prompt_steps text f h a fo
            (snd (create_processing_prompt_steps text f h a fo w)))
     = fst (create_processing_prompt_steps text f h a fo w)
  /\ fst (create_processing_prompt_steps text f h a fo w)
     = create_processing_prompt text f h a fo
  /\ globals (snd (create_processing_prompt_steps text f h a fo w)) = globals w
  /\ random_state (snd (create_processing_prompt_steps text f h a fo w))
     = random_state w
  /\ firstn (List.length (objects w))
       (objects (snd (create_processing_prompt_steps text f h a fo w)))
     = objects w
  /\ List.length (objects (snd (create_processing_prompt_steps text f h a fo w)))
     = S (List.length (objects w)).
Proof.
  rewrite !create_processing_prompt_steps_eq. cbn [fst snd objects globals random_state].
  repeat split.
  - rewrite firstn_app, Nat.sub_diag, firstn_all. cbn [firstn]. apply app_nil_r.
  - rewrite length_app. cbn [List.length]. lia.
Qed.


(** ** The theorems at sample requests *)

(** Levels at the edges of the bands: 2 is low, 3 and 5 are mid, 6 is high. *)
Lemma band_directive_selected_witness :
  In (directive Faithfulness Low) (prompt_parts hello 2 3 5 6)
  /\ In (directive Human_like Mid) (prompt_parts hello 2 3 5 6)
  /\ In (directive Ai_like Mid) (prompt_parts hello 2 3 5 6)
  /\ In (directive Formality High) (prompt_parts hello 2 3 5 6)
  /\ ~ In (directive Human_like Low) (prompt_parts hello 2 3 5 6)
  /\ ~ In (directive Ai_like High) (prompt_parts hello 2 3 5 6).
Proof.
  repeat split.
  - apply (proj2 (proj1 (band_directive_selected hello 2 3 5 6 Faithfulness Low))).
    simpl; lia.
  - apply (proj2 (proj1 (band_directive_selected hello 2 3 5 6 Human_like Mid))).
    simpl; lia.
  - apply (proj2 (proj1 (band_directive_selected hello 2 3 5 6 Ai_like Mid))).
    simpl; lia.
  - apply (proj2 (proj1 (band_directive_selected hello 2 3 5 6 Formality High))).
    simpl; lia.
  - intros H.
    apply (proj1 (proj1 (band_directive_selected hello 2 3 5 6 Human_like Low))) in H.
    simpl in H; lia.
  - intros H.
    apply (proj1 (proj1 (band_directive_selected hello 2 3 5 6 Ai_like High))) in H.
    simpl in H; lia.
Defined.

Lemma validate_slider_values_first_error_witness :
  validate_slider_values bad_levels
    = Ok (false, Some (str "human_like must be between 0 and 10"))
  /\ validate_slider_values (levels "0" "10" " 7 " "+5") = Ok (true, None)
  /\ verdict [] (str "formality") = None.
Proof.
  split; [|split].
  - refine (proj1 (proj1 (proj2 (validate_slider_values_first_error bad_levels))
                     [str "faithfulness"] (str "human_like")
                     [str "ai_like"; str "formality"]
                     (str "human_like must be between 0 and 10") _ _ _)).
    + reflexivity.
    + repeat constructor.
    + reflexivity.
  - apply (proj1 (proj2 (proj2 (validate_slider_values_first_error
                                  (levels "0" "10" " 7 " "+5"))))).
    repeat constructor.
  - apply (proj2 (proj2 (proj2 (validate_slider_values_first_error []))) (str "formality")).
    reflexivity.
Defined.

Lemma omitted_sliders_never_succeed_witness :
  Forall (fun name => get (form without_levels) name = None) required_params
  /\ process_text configured without_levels
     = Log ERROR (str "Unexpected error in process_text: ") (Some TypeError)
         (Return unexpected).
Proof.
  assert (H : Forall (fun name => get (form without_levels) name = None) required_params)
    by (repeat constructor).
  split; [exact H|].
  apply (proj1 (proj2 (proj2 (omitted_sliders_never_succeed
                                (answering (Ok [])) configured without_levels H)))
           hello).
  - reflexivity.
  - reflexivity.
  - vm_compute. discriminate.
Defined.

(** The claim of the specification fails for a long text: the request
    without levels ends in the 400 response about the length, not in the
    generic 500 response. *)
Lemma omitted_sliders_long_text :
  text_field long_without_levels <> []
  /\ Forall (fun name => get (form long_without_levels) name = None) required_params
  /\ process_text configured long_without_levels = Return too_long
  /\ status too_long = 400
  /\ too_long <> unexpected.
Proof.
  split; [|split; [|split; [|split]]].
  - vm_compute. discriminate.
  - repeat constructor.
  - vm_compute. reflexivity.
  - reflexivity.
  - discriminate.
Qed.





Lemma prompt_deterministic_witness :
  snd (create_processing_prompt_steps hello 3 0 6 10 busy_world)
  = {| objects := objects busy_world ++ [prompt_parts hello 3 0 6 10];
       globals := globals busy_world;
       random_state := random_state busy_world |}
  /\ fst (create_processing_prompt_steps hello 3 0 6 10 busy_world)
     = fst (create_processing_prompt_steps hello 3 0 6 10 empty_world).
Proof.
  split; [reflexivity|].
  exact (proj1 (prompt_deterministic hello 3 0 6 10 busy_world empty_world)).
Defined.

Lemma provider_outcome_mapping_witness :
  let req := typed hello (levels "3" "0" "6" "10") in
  let r := completion_request (create_processing_prompt hello 3 0 6 10) in
  run (answering (Ok [Some (str " Hello, world. ")])) (process_text configured req)
  = ([Called r;
      Logged INFO (str "Text processed successfully. Length: 11 -> 13") None],
     Ok (success hello (str "Hello, world.") 3 0 6 10))
  /\ run (answering (Raised (RateLimitError (str "quota")))) (process_text configured req)
     = ([Called r], Ok provider_rate_limited)
  /\ run (answering (Raised (OtherException (str "connection reset"))))
       (process_text configured req)
     = ([Called r;
         Logged ERROR (str "OpenAI API error: ")
           (Some (OtherException (str "connection reset")))],
        Ok provider_failed).
Proof.
  intros req r.
  assert (Hval : validate_slider_values (form req) = Ok (true, None)) by reflexivity.
  assert (Hsl : sliders req = Ok (3, 0, 6, 10)) by reflexivity.
  assert (Hres : resolve_text req = Continue hello) by reflexivity.
  assert (Hlen : len hello <= 10000) by (vm_compute; discriminate).
  split; [|split].
  - exact (proj1 (proj2 (proj2 (proj2 (proj2 (proj2
             (provider_outcome_mapping (answering (Ok [Some (str " Hello, world. ")]))
                configured req hello 3 0 6 10 eq_refl Hres Hlen Hval Hsl))))))
             (str " Hello, world. ") [] eq_refl).
  - exact (proj1 (provider_outcome_mapping
             (answering (Raised (RateLimitError (str "quota"))))
             configured req hello 3 0 6 10 eq_refl Hres Hlen Hval Hsl)
             (str "quota") eq_refl).
  - refine (proj1 (proj2 (proj2 (provider_outcome_mapping
             (answering (Raised (OtherException (str "connection reset"))))
             configured req hello 3 0 6 10 eq_refl Hres Hlen Hval Hsl)))
             (OtherException (str "connection reset")) eq_refl _ _);
      discriminate.
Defined.

(** The claim of the specification fails for an invalid-request failure of
    the provider: it is neither a rate-limit failure nor answered with the
    generic 500 response, and its detail is returned to the caller. *)
Lemma invalid_request_detail_returned :
  let req := typed hello (levels "3" "0" "6" "10") in
  let resp := failure (str "Invalid request: maximum context length exceeded") 400 in
  run (answering (Raised context_exceeded)) (process_text configured req)
  = ([Called (completion_request (create_processing_prompt hello 3 0 6 10))], Ok resp)
  /\ (forall msg, context_exceeded <> RateLimitError msg)
  /\ resp <> provider_failed
  /\ status resp = 400
  /\ occurs (str "maximum context length exceeded")
       (str "Invalid request: maximum context length exceeded") = true.
Proof.
  cbv zeta. split; [vm_compute; reflexivity|].
  split; [discriminate|]. split; [discriminate|]. split; reflexivity.
Qed.

Lemma disallowed_upload_is_ignored_witness :
  readable pdf_only
  /\ text_field pdf_only = []
  /\ allowed_file (str "report.pdf") = false
  /\ process_text configured pdf_only = Return no_input.
Proof.
  assert (Hr : readable pdf_only) by (split; [vm_compute; discriminate | reflexivity]).
  split; [exact Hr|]. split; [reflexivity|]. split; [reflexivity|].
  exact (proj1 (proj2 (disallowed_upload_is_ignored configured pdf_only
           {| filename := str "report.pdf"; content := bytes_of "Hello world" |}
           eq_refl Hr eq_refl eq_refl eq_refl))).
Defined.

(** The claim of the specification fails: an upload with a disallowed
    extension is answered exactly like a request without any input, and
    the error does not name the extension. *)
Lemma disallowed_extension_not_identified :
  allowed_file (str "report.pdf") = false
  /\ process_text configured pdf_only = Return no_input
  /\ process_text configured nothing = Return no_input
  /\ member "error" no_input
     = Some (JStr (str "Please provide text input or upload a text file"))
  /\ occurs (str "pdf") (str "Please provide text input or upload a text file") = false
  /\ occurs (str "extension") (str "Please provide text input or upload a text file") = false.
Proof. repeat split. Qed.

(** ** Further properties of the code *)

(** *** The extension of a file name *)

Lemma contains_char_app (c : N) (a b : pystr) :
  contains_char c (a ++ b) = contains_char c a || contains_char c b.
Proof. unfold contains_char. apply existsb_app. Qed.

Lemma after_last_app (c : N) (stem ext : pystr) :
  contains_char c ext = false ->
  after_last c (stem ++ c :: ext) = ext.
Proof.
  intros Hext. induction stem as [|x stem IH]; simpl.
  - now rewrite Hext, N.eqb_refl.
  - rewrite contains_char_app. cbn [contains_char existsb].
    rewrite N.eqb_refl, orb_true_r. cbn [orb]. exact IH.
Qed.

Section Extension.
Context {U : Unicode}.

(** A name is allowed exactly when the part after its last dot, lowered, is
    [txt] or [md]: a name without dot is refused, and earlier extensions do
    not count. *)
Theorem allowed_file_last_extension :
  (forall name, contains_char dot name = false -> allowed_file name = false)
  /\ (forall stem ext,
        contains_char dot ext = false ->
        (allowed_file (stem ++ dot :: ext) = true
         <-> lower ext = str "txt" \/ lower ext = str "md")).
Proof.
  split.
  - intros name Hname. unfold allowed_file. now rewrite Hname.
  - intros stem ext Hext. unfold allowed_file.
    rewrite after_last_app by assumption.
    rewrite contains_char_app. cbn [contains_char existsb].
    rewrite N.eqb_refl, orb_true_r. cbn [andb ALLOWED_EXTENSIONS existsb].
    rewrite orb_false_r, orb_true_iff, !str_eqb_eq. reflexivity.
Qed.

End Extension.

Lemma allowed_file_last_extension_witness :
  allowed_file (str "report.pdf") = false
  /\ allowed_file (str "txt") = false
  /\ allowed_file (str "draft.v2" ++ dot :: str "MD") = true
  /\ allowed_file (str "notes.txt" ++ dot :: str "exe") = false.
Proof.
  split; [reflexivity|]. split; [|split].
  - apply (proj1 allowed_file_last_extension). reflexivity.
  - apply (proj2 allowed_file_last_extension (str "draft.v2") (str "MD")).
    + reflexivity.
    + right. reflexivity.
  - destruct (allowed_file (str "notes.txt" ++ dot :: str "exe")) eqn:E; [|reflexivity].
    apply (proj2 allowed_file_last_extension (str "notes.txt") (str "exe")) in E.
    + destruct E as [E|E]; vm_compute in E; discriminate E.
    + reflexivity.
Defined.

(** *** What the validator accepts *)

Section Accepts.
Context {U : Unicode}.

Lemma verdict_none_iff (data : form_data) (name : pystr) :
  verdict data name = None
  <-> get data name = None \/ exists n, submits data name n /\ in_range n.
Proof.
  unfold verdict, submits, in_range. destruct (get data name) as [raw|]; simpl.
  - destruct (int_of_str raw) as [n|e] eqn:E.
    + destruct (Z.ltb_spec n 0); simpl.
      * split; [discriminate|].
        intros [H'|(m & (raw' & [= <-] & Hm) & Hr)]; [discriminate|].
        rewrite E in Hm. injection Hm as <-. lia.
      * destruct (Z.ltb_spec 10 n).
        -- split; [discriminate|].
           intros [H'|(m & (raw' & [= <-] & Hm) & Hr)]; [discriminate|].
           rewrite E in Hm. injection Hm as <-. lia.
        -- split; [|reflexivity]. intros _. right. exists n. split; [|lia].
           now exists raw.
    + split; [discriminate|].
      intros [H'|(m & (raw' & [= <-] & Hm) & Hr)]; [discriminate|].
      rewrite E in Hm. discriminate Hm.
  - split; [now left|reflexivity].
Qed.

Lemma validate_loop_accepts (data : form_data) (params : list pystr) :
  validate_loop data params = Ok (true, None)
  <-> Forall (fun name => verdict data name = None) params.
Proof.
  split; [|apply validate_loop_all_pass].
  induction params as [|name params IH]; [constructor|].
  intros H. destruct (verdict data name) as [reason|] eqn:E.
  - rewrite (validate_loop_fail _ _ reason) in H by assumption. discriminate H.
  - rewrite validate_loop_pass in H by assumption. constructor; auto.
Qed.

(** The validator accepts a form exactly when each of the four fields is
    absent or holds a text that [int] converts to a number from 0 to 10;
    no other field of the form is looked at. *)
Theorem validator_accepts_iff (data : form_data) :
  (validate_slider_values data = Ok (true, None)
   <-> Forall (fun name =>
                 get data name = None
                 \/ exists n, submits data name n /\ in_range n)
         required_params)
  /\ (forall data' : form_data,
        Forall (fun name => get data' name = get data name) required_params ->
        validate_slider_values data' = validate_slider_values data).
Proof.
  split.
  - unfold validate_slider_values. rewrite validate_loop_accepts.
    split; intros H; (eapply Forall_impl; [|exact H]); intros name;
      apply verdict_none_iff.
  - unfold validate_slider_values. intros data'.
    generalize required_params as params.
    induction params as [|name params IH]; intros Hagree; [reflexivity|].
    inversion Hagree as [|? ? Hname Hrest]; subst.
    cbn [validate_loop]. unfold get_default. rewrite Hname.
    destruct (py_int _) as [n|e]; [|reflexivity].
    destruct (negb _); [reflexivity|]. now apply IH.
Qed.

(** The conversion of a level by the handler. *)
Lemma slider_converts (data : form_data) (name : pystr) (n : Z) :
  py_int (get_default data name PyNone) = Ok n <-> submits data name n.
Proof.
  unfold get_default, submits. destruct (get data name) as [raw|]; simpl.
  - split; [intros H; now exists raw | now intros (raw' & [= <-] & H)].
  - split; [discriminate | now intros (raw' & H & _)].
Qed.

Lemma sliders_ok_iff (req : request) (f h a fo : Z) :
  sliders req = Ok (f, h, a, fo)
  <-> submits (form req) (str "faithfulness") f
      /\ submits (form req) (str "human_like") h
      /\ submits (form req) (str "ai_like") a
      /\ submits (form req) (str "formality") fo.
Proof.
  rewrite <- !slider_converts. unfold sliders.
  destruct (py_int (get_default (form req) (str "faithfulness") PyNone)) as [f'|e1].
  2: { split; [discriminate | now intros (H & _)]. }
  destruct (py_int (get_default (form req) (str "human_like") PyNone)) as [h'|e2].
  2: { split; [discriminate | now intros (_ & H & _)]. }
  destruct (py_int (get_default (form req) (str "ai_like") PyNone)) as [a'|e3].
  2: { split; [discriminate | now intros (_ & _ & H & _)]. }
  destruct (py_int (get_default (form req) (str "formality") PyNone)) as [fo'|e4].
  2: { split; [discriminate | now intros (_ & _ & _ & H)]. }
  split.
  - now intros [= -> -> -> ->].
  - now intros ([= ->] & [= ->] & [= ->] & [= ->]).
Qed.

(** A conversion that raises after the validator has accepted the form
    raises [TypeError], on a field that is absent. *)
Lemma sliders_raise (req : request) (e : exception) :
  validate_slider_values (form req) = Ok (true, None) ->
  sliders req = Raised e ->
  e = TypeError /\ Exists (fun name => get (form req) name = None) required_params.
Proof.
  intros Hval Hsl. apply validate_loop_accepts in Hval.
  assert (K : forall name e', In name required_params ->
            py_int (get_default (form req) name PyNone) = Raised e' ->
            e' = TypeError /\ get (form req) name = None).
  { intros name e' Hin Hraise.
    rewrite Forall_forall in Hval. specialize (Hval name Hin).
    apply verdict_none_iff in Hval. unfold get_default in Hraise.
    destruct Hval as [Habs|(m & (raw & Hraw & Hm) & _)].
    - rewrite Habs in Hraise. injection Hraise as <-. now split.
    - rewrite Hraw in Hraise. simpl in Hraise. congruence. }
  unfold sliders in Hsl.
  destruct (py_int (get_default (form req) (str "faithfulness") PyNone)) eqn:E1.
  2: { injection Hsl as ->. apply K in E1 as [-> Habs]; [|simpl; auto].
       split; [reflexivity|]. apply Exists_exists. eexists; split; [|exact Habs].
       simpl; auto. }
  destruct (py_int (get_default (form req) (str "human_like") PyNone)) eqn:E2.
  2: { injection Hsl as ->. apply K in E2 as [-> Habs]; [|simpl; auto].
       split; [reflexivity|]. apply Exists_exists. eexists; split; [|exact Habs].
       simpl; auto. }
  destruct (py_int (get_default (form req) (str "ai_like") PyNone)) eqn:E3.
  2: { injection Hsl as ->. apply K in E3 as [-> Habs]; [|simpl; auto].
       split; [reflexivity|]. apply Exists_exists. eexists; split; [|exact Habs].
       simpl; auto. }
  destruct (py_int (get_default (form req) (str "formality") PyNone)) eqn:E4.
  { discriminate Hsl. }
  injection Hsl as ->. apply K in E4 as [-> Habs]; [|simpl; auto 6].
  split; [reflexivity|]. apply Exists_exists. eexists; split; [|exact Habs].
  simpl; auto 6.
Qed.

End Accepts.

Lemma validator_accepts_iff_witness :
  validate_slider_values three_levels = Ok (true, None)
  /\ validate_slider_values ((str "note", str "abc") :: three_levels)
     = validate_slider_values three_levels.
Proof.
  split.
  - apply (proj2 (proj1 (validator_accepts_iff three_levels))).
    repeat first [apply Forall_cons | apply Forall_nil].
    + right. exists 5. split; [now exists (str "5") | unfold in_range; lia].
    + right. exists 5. split; [now exists (str "5") | unfold in_range; lia].
    + right. exists 5. split; [now exists (str "5") | unfold in_range; lia].
    + now left.
  - apply (proj2 (validator_accepts_iff three_levels)).
    repeat first [apply Forall_cons | apply Forall_nil]; reflexivity.
Defined.

(** *** The size of the prompt *)

Lemma len_app (a b : pystr) : len (a ++ b) = len a + len b.
Proof. unfold len. rewrite length_app. lia. Qed.

Lemma in_the_levels (n : Z) : in_range n -> In n the_levels.
Proof.
  unfold in_range. intros H.
  rewrite <- (Z2Nat.id n) by lia.
  assert (K : (Z.to_nat n <= 10)%nat) by lia.
  revert K. generalize (Z.to_nat n) as k. intros k K.
  do 11 (destruct k as [|k]; [simpl; auto 12|]). lia.
Qed.

Lemma blocks_checked : blocks_in_bounds = true.
Proof. vm_compute. reflexivity. Qed.

Lemma block_size_bounds (p : parameter) (n : Z) :
  in_range n ->
  fst (block_bounds p) <= block_size p n <= snd (block_bounds p).
Proof.
  intros Hn. pose proof blocks_checked as H. unfold blocks_in_bounds in H.
  rewrite forallb_forall in H.
  assert (Hp : In p [Faithfulness; Human_like; Ai_like; Formality])
    by (destruct p; simpl; auto).
  specialize (H p Hp). rewrite forallb_forall in H.
  specialize (H n (in_the_levels n Hn)).
  apply andb_true_iff in H as [H1 H2]. apply Z.leb_le in H1, H2. now split.
Qed.

Ltac len_const t :=
  let v := eval vm_compute in (len t) in change (len t) with v.

(** The prompt of the empty text: the fixed parts and the four blocks. *)
Lemma empty_prompt_length (f h a fo : Z) :
  len (create_processing_prompt [] f h a fo)
  = 355 + block_size Faithfulness f + block_size Human_like h
    + block_size Ai_like a + block_size Formality fo.
Proof.
  unfold create_processing_prompt, block_size. rewrite prompt_parts_eq.
  cbn [List.concat]. rewrite !len_app.
  len_const preamble. len_const closing. len_const nl. len_const (@nil N).
  len_const (str "**Faithfulness to Original (Level ").
  len_const (str "**Human-like Sound (Level ").
  len_const (str "**AI-like Sound (Level ").
  len_const (str "**Formality Level (Level ").
  len_const (str "/10):**").
  len_const (str "**Text to process:**").
  lia.
Qed.

Lemma empty_prompt_sum (text : pystr) (f h a fo : Z) :
  len (create_processing_prompt text f h a fo)
  = len text + len (create_processing_prompt [] f h a fo).
Proof.
  unfold create_processing_prompt. rewrite !prompt_parts_eq.
  cbn [List.concat]. rewrite !len_app. change (len []) with 0. lia.
Qed.

(** The builder adds a number of characters that depends on the levels
    only, and between 608 and 681 of them when the levels are in range:
    nothing of the text is dropped or repeated. *)
Theorem prompt_length (text : pystr) (f h a fo : Z) :
  len (create_processing_prompt text f h a fo)
  = len text + len (create_processing_prompt [] f h a fo)
  /\ (in_range f -> in_range h -> in_range a -> in_range fo ->
      prompt_overhead_min <= len (create_processing_prompt [] f h a fo)
      <= prompt_overhead).
Proof.
  split; [apply empty_prompt_sum|].
  intros Hf Hh Ha Hfo. rewrite empty_prompt_length.
  pose proof (block_size_bounds Faithfulness f Hf) as H1.
  pose proof (block_size_bounds Human_like h Hh) as H2.
  pose proof (block_size_bounds Ai_like a Ha) as H3.
  pose proof (block_size_bounds Formality fo Hfo) as H4.
  cbn [block_bounds fst snd] in *.
  unfold prompt_overhead_min, prompt_overhead. lia.
Qed.

Lemma prompt_length_witness :
  in_range 10
  /\ len (create_processing_prompt hello 10 10 10 10)
     = len hello + len (create_processing_prompt [] 10 10 10 10)
  /\ prompt_overhead_min <= len (create_processing_prompt [] 10 10 10 10)
     <= prompt_overhead.
Proof.
  assert (H : in_range 10) by (unfold in_range; lia).
  split; [exact H|]. split.
  - exact (proj1 (prompt_length hello 10 10 10 10)).
  - exact (proj2 (prompt_length hello 10 10 10 10) H H H H).
Defined.

(** Both bounds are attained. *)
Example prompt_overhead_attained :
  len (create_processing_prompt [] 2 2 10 2) = prompt_overhead
  /\ len (create_processing_prompt [] 6 3 3 6) = prompt_overhead_min.
Proof. split; reflexivity. Qed.

(** *** When the provider is called, and with what *)

Section Called.
Context {U : Unicode}.

Lemma submits_once (data : form_data) (name : pystr) (n m : Z) :
  submits data name n -> submits data name m -> n = m.
Proof. intros (raw & H1 & H2) (raw' & H1' & H2'). congruence. Qed.

Lemma resolved_text_not_empty (req : request) (text : pystr) :
  resolve_text req = Continue text -> text <> [].
Proof.
  rewrite resolve_text_eq. destruct (read_form req); [|discriminate].
  destruct (upload req) as [file|].
  - destruct (utf8_decode (content file)) as [file_content|]; [|discriminate].
    destruct (text_field req) as [|c field]; [destruct file_content|];
      try discriminate; intros [= <-]; discriminate.
  - destruct (text_field req); [discriminate|]. intros [= <-]. discriminate.
Qed.

(** A level the validator has accepted and the handler has converted is in
    range. *)
Lemma accepted_level_in_range (data : form_data) (name : pystr) (n : Z) :
  validate_slider_values data = Ok (true, None) ->
  In name required_params ->
  submits data name n ->
  in_range n.
Proof.
  intros Hval Hin Hn. apply validate_loop_accepts in Hval.
  rewrite Forall_forall in Hval. specialize (Hval name Hin).
  apply verdict_none_iff in Hval as [Habs|(m & Hm & Hr)].
  - destruct Hn as (raw & Hraw & _). congruence.
  - now rewrite (submits_once _ _ _ _ Hn Hm).
Qed.

(** The provider is called exactly when the credential is configured, the
    request can be read (its body is not longer than the maximum and
    parsing it raises nothing), the text resolves to at most 10,000
    characters and each of the four level fields is present with a number
    from 0 to 10. *)
Theorem provider_called_iff (provider : chat_request -> result chat_response)
  (cfg : config) (req : request) :
  calls (fst (run provider (process_text cfg req))) <> []
  <-> key_configured cfg = true
      /\ readable req
      /\ (exists text, resolve_text req = Continue text /\ len text <= 10000)
      /\ Forall (fun name => exists n, submits (form req) name n /\ in_range n)
           required_params.
Proof.
  split.
  - intros Hcalls.
    destruct (calls (fst (run provider (process_text cfg req)))) as [|r rest] eqn:E;
      [congruence|].
    assert (Hin : In r (calls (fst (run provider (process_text cfg req)))))
      by (rewrite E; now left).
    apply (handled_calls provider cfg req _ (process_text_handled _ _ _)) in Hin
      as (text & f & h & a & fo & Hkey & Hres & Hlen & Hval & Hsl & _).
    split; [assumption|]. split.
    { apply (resolve_text_readable req _ Hres). discriminate. }
    split; [now exists text|].
    apply sliders_ok_iff in Hsl as (Hf & Hh & Ha & Hfo).
    repeat first [apply Forall_cons | apply Forall_nil].
    + exists f. split; [assumption|].
      apply (accepted_level_in_range (form req) (str "faithfulness")); simpl; auto.
    + exists h. split; [assumption|].
      apply (accepted_level_in_range (form req) (str "human_like")); simpl; auto.
    + exists a. split; [assumption|].
      apply (accepted_level_in_range (form req) (str "ai_like")); simpl; auto.
    + exists fo. split; [assumption|].
      apply (accepted_level_in_range (form req) (str "formality")); simpl; auto 6.
  - intros (Hkey & _ & (text & Hres & Hlen) & Hall).
    assert (Hval : validate_slider_values (form req) = Ok (true, None)).
    { apply validate_loop_accepts. eapply Forall_impl; [|exact Hall].
      intros name Hname. apply verdict_none_iff. now right. }
    inversion Hall as [|? ? (f & Hf & _) Hall1]; subst.
    inversion Hall1 as [|? ? (h & Hh & _) Hall2]; subst.
    inversion Hall2 as [|? ? (a & Ha & _) Hall3]; subst.
    inversion Hall3 as [|? ? (fo & Hfo & _) _]; subst.
    assert (Hsl : sliders req = Ok (f, h, a, fo)) by (now apply sliders_ok_iff).
    rewrite (process_text_calls provider cfg req text None f h a fo) by assumption.
    destruct (call_provider_outcome provider text
                (create_processing_prompt text f h a fo) f h a fo)
      as (trace & resp & Hrun & Hcalls & _).
    rewrite Hrun. cbn [fst]. rewrite Hcalls. discriminate.
Qed.

(** Whatever reaches the provider is well formed: the model is gpt-4o with
    at most 2000 tokens to answer, the user's message is the prompt built
    from a text that is not empty and has at most 10,000 characters and
    from the four levels the form submits, each from 0 to 10; so the prompt
    has at most 10,681 characters. *)
Theorem provider_request_invariant (provider : chat_request -> result chat_response)
  (cfg : config) (req : request) (r : chat_request) :
  In r (calls (fst (run provider (process_text cfg req)))) ->
  exists text f h a fo,
    user_content r = Some (create_processing_prompt text f h a fo)
    /\ model r = str "gpt-4o" /\ max_tokens r = 2000
    /\ List.length (messages r) = 2%nat
    /\ resolve_text req = Continue text
    /\ text <> [] /\ len text <= 10000
    /\ submits (form req) (str "faithfulness") f /\ in_range f
    /\ submits (form req) (str "human_like") h /\ in_range h
    /\ submits (form req) (str "ai_like") a /\ in_range a
    /\ submits (form req) (str "formality") fo /\ in_range fo
    /\ len (create_processing_prompt text f h a fo) <= 10000 + prompt_overhead.
Proof.
  intros Hin.
  apply (handled_calls provider cfg req _ (process_text_handled _ _ _)) in Hin
    as (text & f & h & a & fo & Hkey & Hres & Hlen & Hval & Hsl & -> & _).
  apply sliders_ok_iff in Hsl as (Hf & Hh & Ha & Hfo).
  assert (Rf : in_range f)
    by (apply (accepted_level_in_range (form req) (str "faithfulness")); simpl; auto).
  assert (Rh : in_range h)
    by (apply (accepted_level_in_range (form req) (str "human_like")); simpl; auto).
  assert (Ra : in_range a)
    by (apply (accepted_level_in_range (form req) (str "ai_like")); simpl; auto).
  assert (Rfo : in_range fo)
    by (apply (accepted_level_in_range (form req) (str "formality")); simpl; auto 6).
  exists text, f, h, a, fo.
  repeat (split; [first [reflexivity | assumption
                        | now apply resolved_text_not_empty with req]|]).
  rewrite empty_prompt_sum, empty_prompt_length.
  pose proof (block_size_bounds Faithfulness f Rf) as H1.
  pose proof (block_size_bounds Human_like h Rh) as H2.
  pose proof (block_size_bounds Ai_like a Ra) as H3.
  pose proof (block_size_bounds Formality fo Rfo) as H4.
  cbn [block_bounds fst snd] in *. unfold prompt_overhead. lia.
Qed.

End Called.

Lemma provider_request_invariant_witness :
  let req := uploading "notes.md" (bytes_of "Hello world") (levels "0" " 5" "1_0" "+7") in
  let r := completion_request (create_processing_prompt hello 0 5 10 7) in
  In r (calls (fst (run (answering (Ok [])) (process_text configured req))))
  /\ exists text f h a fo,
       user_content r = Some (create_processing_prompt text f h a fo)
       /\ len (create_processing_prompt text f h a fo) <= 10000 + prompt_overhead.
Proof.
  intros req r.
  assert (H : In r (calls (fst (run (answering (Ok [])) (process_text configured req)))))
    by (vm_compute; left; reflexivity).
  split; [exact H|].
  destruct (provider_request_invariant (answering (Ok [])) configured req r H)
    as (text & f & h & a & fo & H1 & _ & _ & _ & _ & _ & _ & _ & _ & _ & _ & _ & _
        & _ & _ & H2).
  exists text, f, h, a, fo. now split.
Defined.

(** *** Status, envelope and log *)

Section Summary.
Context {U : Unicode}.

(** The ways a request ends: the records logged, the calls made and the
    response. *)
Lemma handled_summary (provider : chat_request -> result chat_response)
  (cfg : config) (req : request) :
  exists trace resp,
    run provider (process_text cfg req) = (trace, Ok resp)
    /\ ((records trace = [] /\ calls trace = []
         /\ (resp = not_configured \/ resp = bad_encoding \/ resp = no_input
             \/ resp = too_long \/ exists reason, resp = failure reason 400))
        \/ (records trace = [ERROR] /\ calls trace = [] /\ resp = unexpected)
        \/ (records trace = []
            /\ (resp = provider_rate_limited
                \/ exists msg, resp = failure (str "Invalid request: " ++ msg) 400))
        \/ (records trace = [ERROR] /\ resp = provider_failed)
        \/ (records trace = [INFO]
            /\ exists text processed f h a fo,
                 resp = success text processed f h a fo)).
Proof.
  destruct (process_text_handled provider cfg req)
    as [Hkey|r0 Hkey Hres|text Hkey Hres Hlen|text reason Hkey Hres Hlen Hval Hne
       |text e Hkey Hres Hlen Hval Hsl|text f h a fo Hkey Hres Hlen Hval Hsl
       |e Hkey Hres].
  7: { eexists _, _. split; [reflexivity|]. right; left. auto. }
  - eexists _, _. split; [reflexivity|]. left. auto 8.
  - eexists _, _. split; [reflexivity|]. left.
    destruct (resolve_text_responses _ _ Hres) as [-> | ->]; auto 8.
  - eexists _, _. split; [reflexivity|]. left. auto 8.
  - eexists _, _. split; [reflexivity|]. left. eauto 10.
  - eexists _, _. split; [reflexivity|]. right; left. auto.
  - rewrite run_call_provider. cbv zeta.
    destruct (provider _) as [[|[content|] rest]|e].
    + eexists _, _. split; [reflexivity|]. do 3 right. left. auto.
    + eexists _, _. split; [reflexivity|]. do 4 right. split; [reflexivity|].
      eauto 8.
    + eexists _, _. split; [reflexivity|]. do 3 right. left. auto.
    + destruct e; eexists _, _; (split; [reflexivity|]);
        first [ do 3 right; left; split; reflexivity
              | do 2 right; left; split; [reflexivity|]; eauto ].
Qed.

(** The status is 200 exactly when the envelope reports success; every
    other response has the status 400, 429 or 500. *)
Theorem status_matches_success (provider : chat_request -> result chat_response)
  (cfg : config) (req : request) :
  exists trace resp,
    run provider (process_text cfg req) = (trace, Ok resp)
    /\ (status resp = 200 <-> member "success" resp = Some (JBool true))
    /\ (status resp = 200 \/ member "success" resp = Some (JBool false)
                             /\ In (status resp) [400; 429; 500]).
Proof.
  destruct (handled_summary provider cfg req) as (trace & resp & Hrun & H).
  exists trace, resp. split; [assumption|].
  destruct H as [(_ & _ & [->|[->|[->|[->|(reason & ->)]]]])
                |[(_ & _ & ->)
                 |[(_ & [->|(msg & ->)])
                  |[(_ & ->)
                   |(_ & text & processed & f & h & a & fo & ->)]]]];
    cbn; (split; [split; [discriminate || reflexivity | discriminate || reflexivity]|]);
    first [ left; reflexivity | right; split; [reflexivity|]; auto ].
Qed.

(** At most one record is logged per request: one at the level INFO when
    the rewrite succeeds, one at the level ERROR with the responses
    "An unexpected error occurred" and "Failed to process text", and none
    with any other response; a request refused with 400 or 429 leaves no
    trace in the log. *)
Theorem one_log_record (provider : chat_request -> result chat_response)
  (cfg : config) (req : request) :
  exists trace resp,
    run provider (process_text cfg req) = (trace, Ok resp)
    /\ ((records trace = [INFO] /\ status resp = 200)
        \/ (records trace = [ERROR] /\ status resp = 500
            /\ (resp = unexpected \/ resp = provider_failed))
        \/ (records trace = []
            /\ (status resp = 400 \/ status resp = 429 \/ resp = not_configured))).
Proof.
  destruct (handled_summary provider cfg req) as (trace & resp & Hrun & H).
  exists trace, resp. split; [assumption|].
  destruct H as [(Hr & _ & [->|[->|[->|[->|(reason & ->)]]]])
                |[(Hr & _ & ->)
                 |[(Hr & [->|(msg & ->)])
                  |[(Hr & ->)
                   |(Hr & text & processed & f & h & a & fo & ->)]]]];
    rewrite Hr; cbn;
    first [ left; split; reflexivity
          | right; left; split; [reflexivity|]; split; [reflexivity|]; auto
          | right; right; split; [reflexivity|]; auto ].
Qed.

End Summary.

(** *** The unexpected error *)

Lemma provider_failed_not_unexpected : provider_failed <> unexpected.
Proof. intros H. vm_compute in H. discriminate H. Qed.

Section Unexpected.
Context {U : Unicode}.

(** The response is "An unexpected error occurred" exactly when the
    credential is configured and either the request cannot be read (as
    when its body is longer than the maximum) or the text resolves to at
    most 10,000 characters, the validator accepts the form and one of the
    four level fields is absent.  One record is logged then and the
    provider is not called: the record holds what reading the request
    raised in the first case, and the [TypeError] of the conversion in the
    second. *)
Theorem unexpected_error_iff (provider : chat_request -> result chat_response)
  (cfg : config) (req : request) :
  (snd (run provider (process_text cfg req)) = Ok unexpected
   <-> key_configured cfg = true
       /\ (~ readable req
           \/ exists text,
                resolve_text req = Continue text /\ len text <= 10000
                /\ validate_slider_values (form req) = Ok (true, None)
                /\ Exists (fun name => get (form req) name = None) required_params))
  /\ (snd (run provider (process_text cfg req)) = Ok unexpected ->
      exists e,
        fst (run provider (process_text cfg req))
        = [Logged ERROR (str "Unexpected error in process_text: ") (Some e)]
        /\ (readable req -> e = TypeError)
        /\ (~ readable req -> read_form req = Raised e)
        /\ (MAX_CONTENT_LENGTH < content_length req -> e = RequestEntityTooLarge)).
Proof.
  assert (Hto : snd (run provider (process_text cfg req)) = Ok unexpected ->
                key_configured cfg = true
                /\ (~ readable req
                    \/ exists text,
                         resolve_text req = Continue text /\ len text <= 10000
                         /\ validate_slider_values (form req) = Ok (true, None)
                         /\ Exists (fun name => get (form req) name = None)
                              required_params)
                /\ exists e,
                     fst (run provider (process_text cfg req))
                     = [Logged ERROR (str "Unexpected error in process_text: ") (Some e)]
                     /\ (readable req -> e = TypeError)
                     /\ (~ readable req -> read_form req = Raised e)
                     /\ (MAX_CONTENT_LENGTH < content_length req ->
                         e = RequestEntityTooLarge)).
  { destruct (process_text_handled provider cfg req)
      as [Hkey|r0 Hkey Hres|text Hkey Hres Hlen
         |text reason Hkey Hres Hlen Hval Hne
         |text e Hkey Hres Hlen Hval Hsl|text f h a fo Hkey Hres Hlen Hval Hsl
         |e Hkey Hres].
    - cbn [snd]. intros H. discriminate H.
    - cbn [snd]. intros H. injection H as ->.
      destruct (resolve_text_responses _ _ Hres) as [H|H]; discriminate H.
    - cbn [snd]. intros H. discriminate H.
    - cbn [snd]. intros H. discriminate H.
    - intros _. destruct (sliders_raise req e Hval Hsl) as [-> Habs].
      assert (Hr : readable req)
        by (apply (resolve_text_readable req _ Hres); discriminate).
      split; [assumption|]. split; [right; exists text; auto|].
      exists TypeError. split; [reflexivity|].
      split; [reflexivity|]. split; [contradiction|].
      intros Hbig. destruct Hr as [Hr _]. lia.
    - rewrite run_call_provider. cbv zeta.
      destruct (provider _) as [[|[content|] rest]|e]; [| | |destruct e];
        cbn [snd]; intros H;
        first [ discriminate H
              | injection H as H; now apply provider_failed_not_unexpected in H ].
    - intros _. apply resolve_text_raises in Hres.
      assert (Hr : ~ readable req) by (now apply read_form_raises with e).
      split; [assumption|]. split; [now left|].
      exists e. split; [reflexivity|]. split; [contradiction|].
      split; [intros _; assumption|].
      intros Hbig. rewrite (read_form_too_large req Hbig) in Hres. congruence. }
  split; [split|].
  - intros H. destruct (Hto H) as (H1 & H2 & _). now split.
  - intros (Hkey & [Hr|(text & Hres & Hlen & Hval & Habs)]).
    + destruct (unreadable_raises req Hr) as [e He].
      apply resolve_text_raises in He.
      now rewrite (process_text_unreadable cfg req e).
    + destruct (sliders req) as [[[[f h] a] fo]|e] eqn:Hsl.
      * exfalso. apply sliders_ok_iff in Hsl as (Hf & Hh & Ha & Hfo).
        apply Exists_exists in Habs as (name & Hin & Hnone).
        destruct Hin as [<-|[<-|[<-|[<-|[]]]]];
          [destruct Hf as (raw & Hraw & _) | destruct Hh as (raw & Hraw & _)
          |destruct Ha as (raw & Hraw & _) | destruct Hfo as (raw & Hraw & _)];
          congruence.
      * now rewrite (process_text_conversion_raises cfg req text None e).
  - intros H. now destruct (Hto H) as (_ & _ & H3).
Qed.

End Unexpected.

Lemma unexpected_error_iff_witness :
  snd (run (answering (Ok [Some hello])) (process_text configured (typed hello three_levels)))
  = Ok unexpected
  /\ snd (run (answering (Ok [Some hello])) (process_text configured oversized))
     = Ok unexpected.
Proof.
  assert (Hlen : len hello <= 10000) by (vm_compute; discriminate).
  split.
  - apply (proj2 (proj1 (unexpected_error_iff (answering (Ok [Some hello]))
                           configured (typed hello three_levels)))).
    split; [reflexivity|]. right. exists hello.
    split; [reflexivity|]. split; [exact Hlen|]. split; [reflexivity|].
    apply Exists_exists. exists (str "formality"). split; [|reflexivity].
    simpl; auto 6.
  - apply (proj2 (proj1 (unexpected_error_iff (answering (Ok [Some hello]))
                           configured oversized))).
    split; [reflexivity|]. left. intros (H & _). apply H. reflexivity.
Defined.

(** *** Blank texts and unread uploads *)

Section Blank.
Context {U : Unicode}.

Lemma dropwhile_blank (s : pystr) : blank s -> dropwhile isspace s = [].
Proof.
  induction 1 as [|c s Hc _ IH]; [reflexivity|]. simpl. now rewrite Hc.
Qed.

Lemma dropwhile_not_blank (s : pystr) : ~ blank s -> dropwhile isspace s <> [].
Proof.
  induction s as [|c s IH]; intros Hs.
  - contradiction Hs. constructor.
  - simpl. destruct (isspace c) eqn:Hc; [|discriminate].
    apply IH. intros Hb. apply Hs. now constructor.
Qed.

Lemma blank_dec (s : pystr) : blank s \/ ~ blank s.
Proof.
  induction s as [|c s [IH|IH]].
  - left. constructor.
  - destruct (isspace c) eqn:Hc.
    + left. now constructor.
    + right. intros H. inversion H; congruence.
  - right. intros H. inversion H; contradiction.
Qed.

(** What [dropwhile] leaves starts with a character that is not white
    space. *)
Lemma dropwhile_head (s : pystr) (c : N) (r : pystr) :
  dropwhile isspace s = c :: r -> isspace c = false.
Proof.
  induction s as [|x s IH]; simpl; [discriminate|].
  destruct (isspace x) eqn:Hx; [exact IH|]. now intros [= <- _].
Qed.

Lemma strip_empty_iff (s : pystr) : strip s = [] <-> blank s.
Proof.
  unfold strip. split.
  - intros H. destruct (blank_dec s) as [Hb|Hb]; [assumption|exfalso].
    apply dropwhile_not_blank in Hb.
    destruct (dropwhile isspace s) as [|c r] eqn:E; [congruence|].
    apply dropwhile_head in E.
    unfold rev' in H. rewrite <- !rev_alt in H.
    apply (f_equal (@rev N)) in H. rewrite rev_involutive in H. simpl in H.
    assert (K : ~ blank (rev r ++ [c])).
    { intros K. apply Forall_app in K as [_ K]. inversion K; congruence. }
    apply dropwhile_not_blank in K. congruence.
  - intros Hb. rewrite (dropwhile_blank s Hb). reflexivity.
Qed.

(** The text field counts as empty exactly when it is absent or holds
    nothing but white space.  When the credential is configured and the
    request can be read, such a request, if no upload is read, is answered
    with the 400 error asking for a text or a file. *)
Theorem blank_text_is_no_text (req : request) :
  (text_field req = []
   <-> match get (form req) (str "text_input") with
       | Some raw => blank raw
       | None => True
       end)
  /\ (forall cfg, key_configured cfg = true -> readable req ->
                  text_field req = [] -> upload req = None ->
                  process_text cfg req = Return no_input
                  /\ status no_input = 400).
Proof.
  split.
  - unfold text_field. destruct (get (form req) (str "text_input")) as [raw|].
    + apply strip_empty_iff.
    + split; [trivial|]. intros _. apply strip_empty_iff. constructor.
  - intros cfg Hkey Hr Hfield Hup. split; [|reflexivity].
    apply process_text_unresolved; [assumption|].
    now rewrite (resolve_text_read req Hr), Hup, Hfield.
Qed.

(** An upload that is not read (sent under another name than [file],
    without a name, or with an extension that is not allowed) counts only
    through the reading of the body, which its size can make fail: two
    requests whose uploads are not read and whose forms are read with the
    same result are handled in the same way, whatever the uploads hold. *)
Theorem unread_upload_changes_nothing (cfg : config) (req req' : request) :
  upload req = None ->
  upload req' = None ->
  read_form req = read_form req' ->
  process_text cfg req = process_text cfg req'.
Proof.
  intros Hup Hup' Hread.
  assert (Hres : resolve_text req = resolve_text req').
  { rewrite !resolve_text_eq, Hup, Hup', <- Hread.
    destruct (read_form req) as [data|e] eqn:E; [|reflexivity].
    assert (Hf : form req = form req').
    { apply read_form_ok in E as [-> _]. symmetry in Hread.
      now apply read_form_ok in Hread as [-> _]. }
    unfold text_field. now rewrite Hf. }
  unfold process_text. rewrite Hres.
  destruct (key_configured cfg); [|reflexivity]. cbn [negb].
  destruct (resolve_text req') as [text|r|e] eqn:E; try reflexivity.
  assert (Hf : form req = form req').
  { assert (Hr' : readable req')
      by (apply (resolve_text_readable req' _ E); discriminate).
    rewrite (read_form_readable req' Hr') in Hread.
    now apply read_form_ok in Hread as [Hf _]. }
  unfold slider. now rewrite Hf.
Qed.

End Blank.

Lemma blank_text_is_no_text_witness :
  process_text configured (typed (str "  " ++ nl) levels_5) = Return no_input.
Proof.
  refine (proj1 (proj2 (blank_text_is_no_text (typed (str "  " ++ nl) levels_5))
                   configured _ _ _ _)).
  - reflexivity.
  - split; [vm_compute; discriminate | reflexivity].
  - apply (proj2 (proj1 (blank_text_is_no_text (typed (str "  " ++ nl) levels_5)))).
    repeat constructor.
  - reflexivity.
Defined.

Lemma unread_upload_changes_nothing_witness :
  let req := sending ((str "text_input", hello) :: levels_5)
               [(str "document", {| filename := str "notes.txt";
                                    content := bytes_of "Other text" |})] in
  upload req = None
  /\ content_length (typed hello levels_5) < content_length req
  /\ process_text configured req = process_text configured (typed hello levels_5)
  /\ process_text configured misnamed_upload
     = process_text configured (without_files misnamed_upload).
Proof.
  intros req.
  split; [reflexivity|]. split; [vm_compute; reflexivity|]. split.
  - apply (unread_upload_changes_nothing configured req (typed hello levels_5));
      vm_compute; reflexivity.
  - apply (unread_upload_changes_nothing configured misnamed_upload
             (without_files misnamed_upload)); reflexivity.
Defined.

(** *** The prompt determines its arguments *)

From Stdlib Require Import DecimalPos DecimalZ.

Lemma str_cons (c : ascii) (s : string) : str (String c s) = N_of_ascii c :: str s.
Proof. reflexivity. Qed.

Lemma str_inj (s s' : string) : str s = str s' -> s = s'.
Proof.
  revert s'. induction s as [|c s IH]; intros [|c' s']; try discriminate.
  - reflexivity.
  - rewrite !str_cons. intros [= Hc Hs]. f_equal; [|now apply IH].
    rewrite <- (ascii_N_embedding c), <- (ascii_N_embedding c'). now rewrite Hc.
Qed.

Lemma to_int_proper (n : Z) :
  Z.to_int n <> Decimal.Pos Decimal.Nil /\ Z.to_int n <> Decimal.Neg Decimal.Nil.
Proof.
  destruct n as [|p|p]; simpl; split; try discriminate;
    intros [= H]; now apply (DecimalPos.Unsigned.to_uint_nonnil p).
Qed.

Lemma str_of_int_inj (n m : Z) : str_of_int n = str_of_int m -> n = m.
Proof.
  unfold str_of_int. intros H. apply str_inj in H.
  apply (f_equal NilZero.int_of_string) in H.
  destruct (to_int_proper n) as [Hn1 Hn2]. destruct (to_int_proper m) as [Hm1 Hm2].
  rewrite !NilZero.isi in H by assumption.
  injection H as H. apply (f_equal Z.of_int) in H.
  now rewrite !DecimalZ.of_to in H.
Qed.

Lemma digits_no_slash (d : Decimal.uint) :
  Forall (fun c => c <> slash) (str (NilEmpty.string_of_uint d)).
Proof.
  induction d; cbn [NilEmpty.string_of_uint];
    first [ rewrite str_cons; constructor; [discriminate | assumption]
          | apply Forall_nil ].
Qed.

Lemma str_of_int_no_slash (n : Z) : Forall (fun c => c <> slash) (str_of_int n).
Proof.
  unfold str_of_int.
  assert (K : forall d, Forall (fun c => c <> slash) (str (NilZero.string_of_uint d))).
  { intros d. destruct d; try apply digits_no_slash.
    repeat constructor. discriminate. }
  destruct (Z.to_int n) as [d|d]; cbn [NilZero.string_of_int]; [apply K|].
  rewrite str_cons. constructor; [discriminate | apply K].
Qed.

Lemma split_at_slash (s s' r r' : pystr) :
  Forall (fun c => c <> slash) s -> Forall (fun c => c <> slash) s' ->
  s ++ slash :: r = s' ++ slash :: r' -> s = s' /\ r = r'.
Proof.
  intros Hs. revert s'. induction Hs as [|c s Hc _ IH]; intros s' Hs' H.
  - destruct Hs' as [|c' s' Hc' _]; simpl in H.
    + injection H as ->. now split.
    + injection H as H _. congruence.
  - destruct Hs' as [|c' s' Hc' Hs']; simpl in H.
    + injection H as H _. congruence.
    + injection H as -> H. destruct (IH s' Hs' H) as [-> ->]. now split.
Qed.

(** Two headings that agree show the same level, and what follows them
    agrees too. *)
Lemma same_level (n m : Z) (r r' : pystr) :
  str_of_int n ++ str "/10):**" ++ r = str_of_int m ++ str "/10):**" ++ r' ->
  n = m /\ r = r'.
Proof.
  change (str "/10):**") with (slash :: str "10):**"). cbn [app].
  intros H.
  apply split_at_slash in H as [Hn Hr]; try apply str_of_int_no_slash.
  apply app_inv_head in Hr. split; [now apply str_of_int_inj | assumption].
Qed.

(** The prompt determines the text and the four levels: two prompts are
    the same only when they are built from the same text and the same
    levels. *)
Theorem prompt_injective (text text' : pystr) (f f' h h' a a' fo fo' : Z) :
  create_processing_prompt text f h a fo = create_processing_prompt text' f' h' a' fo' ->
  text = text' /\ f = f' /\ h = h' /\ a = a' /\ fo = fo'.
Proof.
  unfold create_processing_prompt. rewrite !prompt_parts_eq. cbn [List.concat].
  rewrite <- !app_assoc. intros H.
  do 3 apply app_inv_head in H. apply same_level in H as [<- H].
  do 3 apply app_inv_head in H. apply same_level in H as [<- H].
  do 3 apply app_inv_head in H. apply same_level in H as [<- H].
  do 3 apply app_inv_head in H. apply same_level in H as [<- H].
  do 4 apply app_inv_head in H. apply app_inv_tail in H.
  auto.
Qed.

Lemma prompt_injective_witness :
  create_processing_prompt hello 3 0 6 10 <> create_processing_prompt hello 3 0 6 1.
Proof.
  intros H.
  apply (prompt_injective hello hello 3 3 0 0 6 6 10 1) in H
    as (_ & _ & _ & _ & H).
  discriminate H.
Defined.

(** *** The size of an upload *)

Lemma option_map_cons (x : N) (o : option pystr) (s : pystr) :
  option_map (cons x) o = Some s -> exists s0, o = Some s0 /\ s = x :: s0.
Proof. destruct o as [s0|]; [intros [= <-]; now exists s0 | discriminate]. Qed.

Lemma utf8_decode_length_upto (n : nat) (bs : list N) (s : pystr) :
  (List.length bs <= n)%nat ->
  utf8_decode bs = Some s ->
  (List.length s <= List.length bs <= 4 * List.length s)%nat.
Proof.
  revert bs s. induction n as [|n IH]; intros bs s Hle H.
  - destruct bs; [|simpl in Hle; lia]. injection H as <-. simpl. lia.
  - destruct bs as [|b0 r0]; [injection H as <-; simpl; lia|].
    cbn [utf8_decode] in H. cbn [List.length] in Hle.
    destruct (b0 <? 128)%N.
    { apply option_map_cons in H as (s0 & H & ->).
      apply IH in H; [|lia]. cbn [List.length]. lia. }
    destruct (b0 <? 194)%N; [discriminate|].
    destruct (b0 <? 224)%N.
    { destruct r0 as [|b1 r1]; [discriminate|].
      destruct (between 128 191 b1); [|discriminate].
      apply option_map_cons in H as (s0 & H & ->).
      cbn [List.length] in *. apply IH in H; [|lia]. lia. }
    destruct (b0 <? 240)%N.
    { destruct r0 as [|b1 [|b2 r2]]; try discriminate.
      cbv zeta in H. destruct (_ && _); [|discriminate].
      apply option_map_cons in H as (s0 & H & ->).
      cbn [List.length] in *. apply IH in H; [|lia]. lia. }
    destruct (b0 <? 245)%N; [|discriminate].
    destruct r0 as [|b1 [|b2 [|b3 r3]]]; try discriminate.
    cbv zeta in H. destruct (_ && _); [|discriminate].
    apply option_map_cons in H as (s0 & H & ->).
    cbn [List.length] in *. apply IH in H; [|lia]. lia.
Qed.

(** A decoded text has at most as many characters as there are bytes, and
    at least a quarter of that. *)
Lemma utf8_decode_length (bs : list N) (s : pystr) :
  utf8_decode bs = Some s ->
  (List.length s <= List.length bs <= 4 * List.length s)%nat.
Proof. apply (utf8_decode_length_upto (List.length bs)). lia. Qed.

Section UploadSize.
Context {U : Unicode}.

(** When the text comes from the upload (the text field is empty): an
    upload of more than 40,000 bytes is always refused, its text never
    reaches the provider: the request ends with the response of the
    missing credential, of an unexpected error (the request cannot be
    read), of the encoding or of the length.  And when the request can be
    read, an upload of at most 10,000 bytes that decodes to a text that
    is not empty always passes the length check. *)
Theorem upload_size_limits (provider : chat_request -> result chat_response)
  (cfg : config) (req : request) (file : FileStorage) :
  text_field req = [] ->
  upload req = Some file ->
  (40000 < Z.of_nat (List.length (content file)) ->
   calls (fst (run provider (process_text cfg req))) = []
   /\ (snd (run provider (process_text cfg req)) = Ok not_configured
       \/ snd (run provider (process_text cfg req)) = Ok unexpected
       \/ snd (run provider (process_text cfg req)) = Ok bad_encoding
       \/ snd (run provider (process_text cfg req)) = Ok too_long))
  /\ (forall text,
        readable req ->
        Z.of_nat (List.length (content file)) <= 10000 ->
        utf8_decode (content file) = Some text -> text <> [] ->
        resolve_text req = Continue text /\ len text <= 10000).
Proof.
  intros Hfield Hup. split.
  - intros Hbig. destruct (key_configured cfg) eqn:Hkey.
    2: { rewrite process_text_not_configured by assumption. cbn. auto. }
    destruct (read_form req) as [data|e] eqn:Hread.
    2: { apply resolve_text_raises in Hread.
         rewrite (process_text_unreadable cfg req e) by assumption. cbn. auto. }
    apply read_form_ok in Hread as [_ Hr].
    destruct (utf8_decode (content file)) as [text|] eqn:Hdec.
    + pose proof (utf8_decode_length _ _ Hdec) as Hlen.
      rewrite (process_text_too_long cfg req text); [cbn; auto 6|assumption| |unfold len; lia].
      rewrite (resolve_text_read req Hr), Hup, Hdec, Hfield.
      destruct text; [simpl in Hlen; lia | reflexivity].
    + rewrite (process_text_unresolved cfg req bad_encoding); [cbn; auto 6|assumption|].
      now rewrite (resolve_text_read req Hr), Hup, Hdec.
  - intros text Hr Hsmall Hdec Hne. pose proof (utf8_decode_length _ _ Hdec) as Hlen.
    split; [|unfold len; lia].
    rewrite (resolve_text_read req Hr), Hup, Hdec, Hfield. now destruct text.
Qed.

(** A completion that holds nothing but white space is reported as a
    success, with an empty [processed_text]. *)
Theorem blank_completion_is_success (provider : chat_request -> result chat_response)
  (cfg : config) (req : request) (text content : pystr) (rest : chat_response)
  (f h a fo : Z) :
  key_configured cfg = true ->
  resolve_text req = Continue text ->
  len text <= 10000 ->
  validate_slider_values (form req) = Ok (true, None) ->
  sliders req = Ok (f, h, a, fo) ->
  provider (completion_request (create_processing_prompt text f h a fo))
  = Ok (Some content :: rest) ->
  blank content ->
  snd (run provider (process_text cfg req)) = Ok (success text [] f h a fo)
  /\ status (success text [] f h a fo) = 200
  /\ member "processed_text" (success text [] f h a fo) = Some (JStr []).
Proof.
  intros Hkey Hres Hlen Hval Hsl Hprov Hblank.
  rewrite (process_text_calls provider cfg req text None f h a fo) by assumption.
  rewrite run_call_provider. cbv zeta. rewrite Hprov. cbn [snd].
  rewrite (proj2 (strip_empty_iff content) Hblank). repeat split.
Qed.

End UploadSize.

Lemma upload_size_limits_witness :
  let req := uploading "big.txt" (repeat 97%N (Z.to_nat 40001)) levels_5 in
  calls (fst (run (answering (Ok [Some hello])) (process_text configured req))) = []
  /\ resolve_text (uploading "notes.txt" (bytes_of "Hello world") levels_5)
     = Continue hello.
Proof.
  intros req.
  assert (Hfield : text_field req = []) by reflexivity.
  assert (Hup : upload req = Some {| filename := str "big.txt";
                                     content := repeat 97%N (Z.to_nat 40001) |})
    by reflexivity.
  split.
  - apply (proj1 (upload_size_limits (answering (Ok [Some hello])) configured req _
                    Hfield Hup)).
    cbn [content]. rewrite repeat_length. vm_compute. reflexivity.
  - refine (proj1 (proj2 (upload_size_limits (answering (Ok [])) configured
                     (uploading "notes.txt" (bytes_of "Hello world") levels_5)
                     {| filename := str "notes.txt"; content := bytes_of "Hello world" |}
                     _ _) hello _ _ _ _)).
    + reflexivity.
    + reflexivity.
    + split; [vm_compute; discriminate | reflexivity].
    + vm_compute. discriminate.
    + reflexivity.
    + discriminate.
Defined.

Lemma blank_completion_is_success_witness :
  let req := typed hello levels_5 in
  snd (run (answering (Ok [Some (nl ++ str "  ")])) (process_text configured req))
  = Ok (success hello [] 5 5 5 5).
Proof.
  intros req.
  assert (Hlen : len hello <= 10000) by (vm_compute; discriminate).
  assert (Hres : resolve_text req = Continue hello) by reflexivity.
  assert (Hval : validate_slider_values (form req) = Ok (true, None)) by reflexivity.
  assert (Hsl : sliders req = Ok (5, 5, 5, 5)) by reflexivity.
  refine (proj1 (blank_completion_is_success (answering (Ok [Some (nl ++ str "  ")]))
            configured req hello (nl ++ str "  ") [] 5 5 5 5
            eq_refl Hres Hlen Hval Hsl eq_refl _)).
  repeat constructor.
Defined.

Lemma provider_called_iff_witness :
  calls (fst (run (answering (Ok [])) (process_text configured (typed hello levels_5))))
  <> [].
Proof.
  apply (proj2 (provider_called_iff (answering (Ok [])) configured (typed hello levels_5))).
  split; [reflexivity|]. split; [|split].
  - split; [vm_compute; discriminate | reflexivity].
  - exists hello. split; [reflexivity | vm_compute; discriminate].
  - repeat first [apply Forall_cons | apply Forall_nil];
      (exists 5; split; [now exists (str "5") | unfold in_range; lia]).
Defined.
